(** * Pytero request manager: a shallow embedding of [Pytero/requests.py]

    The development models [RequestManager] (header construction, query
    validation, the dispatch state machine of [_make] and the verb methods)
    the way the Python source is written, and proves properties of it.

    - Python values are the inductive [pyval]; dictionaries keep insertion
      order, so they are association lists with unique keys.
    - Effects (exceptions, the [ping] field, the dictionary objects that
      [_make] copies and pops from, subscriber calls, the HTTP exchange) are
      threaded through a small state-and-exception monad [M] whose state
      survives a raised exception, as in Python.
    - Strings are UTF-8 text; the readings of [time()] and the [ping] field
      are binary64 floats. *)

From Stdlib Require Import Ascii PrimFloat.
From stdpp Require Import gmap strings list pretty.

Open Scope Z_scope.

#[local] Set Warnings "-register-all".

(** ** Python values *)

(** The values that reach the request manager: [None], booleans, integers,
    strings, tuples, lists and string-keyed dictionaries.  Floats and bytes
    are left out of the universe. *)
Inductive pyval : Type :=
  | PNone
  | PBool (b : bool)
  | PInt (z : Z)
  | PStr (s : string)
  | PTuple (items : list pyval)
  | PList (items : list pyval)
  | PDict (entries : list (string * pyval)).

(** A [dict] object's contents: bindings in insertion order. *)
Abbreviation dict := (list (string * pyval)).

(** ** Exceptions and results *)

Inductive exn : Type :=
  | ValueError (msg : string)
  | TypeError (msg : string)
  | AttributeError (msg : string)
  | KeyError (key : string)
  | IndexError (msg : string)
  | ValidationError (msg : string)
  | PteroAPIError (code : pyval) (err : pyval)
  | RequestError (msg : string)
  | DecodeError (msg : string)
  | ClientError (msg : string).

Inductive result (A : Type) : Type :=
  | Ok (a : A)
  | Raise (e : exn).
Arguments Ok {A} a.
Arguments Raise {A} e.

Definition rbind {A B : Type} (r : result A) (k : A -> result B) : result B :=
  match r with
  | Ok a => k a
  | Raise e => Raise e
  end.

Notation "'let?' x ':=' e 'in' k" := (rbind e (fun x => k))
  (at level 10, x name, e at level 200, k at level 200,
   format "'[v' 'let?'  x  ':='  e  'in' '/' k ']'").

(** ** Built-in operations on values *)

(** [bool(v)]: the truth value Python gives [v] in an [if]. *)
Definition truthy (v : pyval) : bool :=
  match v with
  | PNone => false
  | PBool b => b
  | PInt z => negb (z =? 0)
  | PStr s => negb (String.eqb s "")
  | PTuple items => negb (Nat.eqb (length items) 0)
  | PList items => negb (Nat.eqb (length items) 0)
  | PDict entries => negb (Nat.eqb (length entries) 0)
  end.

(** [d.get(k)]: the value bound to [k], or [None]. *)
Fixpoint dict_get (d : dict) (k : string) : pyval :=
  match d with
  | [] => PNone
  | (k', v) :: rest => if String.eqb k' k then v else dict_get rest k
  end.

(** [d.pop(k, None)] on the contents: the binding of [k] is gone. *)
Definition dict_pop (k : string) (d : dict) : dict :=
  List.filter (fun kv => negb (String.eqb (fst kv) k)) d.

(** The integer an [int] or [bool] stands for in a comparison or under
    [%d]; any other value raises [TypeError] there. *)
Definition as_int (v : pyval) : result Z :=
  match v with
  | PInt z => Ok z
  | PBool b => Ok (if b then 1 else 0)
  | _ => Raise (TypeError "an integer is required")
  end.

(** Strings are UTF-8 encoded text.  On a string of ASCII characters
    ['x'.lower()] maps the letters A-Z to a-z; [is_ascii] tells such a
    string. *)
Definition is_ascii (s : string) : bool :=
  forallb (fun c => Nat.ltb (nat_of_ascii c) 128) (String.list_ascii_of_string s).

(** A byte of the form 10xxxxxx continues the character begun before it. *)
Definition is_continuation (s : string) : bool :=
  match s with
  | String c _ => (Nat.leb 128 (nat_of_ascii c) && Nat.ltb (nat_of_ascii c) 192)%bool
  | EmptyString => false
  end.

(** The characters (code points) of a string, as iterating over it or
    indexing it yields them: each lead byte with the continuation bytes that
    follow it. *)
Fixpoint utf8_chars (s : string) : list string :=
  match s with
  | EmptyString => []
  | String c rest =>
      match utf8_chars rest with
      | next :: more =>
          if is_continuation rest then String c next :: more
          else String c EmptyString :: next :: more
      | [] => [String c EmptyString]
      end
  end.

Definition ascii_lower (c : ascii) : ascii :=
  let n := nat_of_ascii c in
  if (Nat.leb 65 n && Nat.leb n 90)%bool then ascii_of_nat (n + 32) else c.

Fixpoint lower (s : string) : string :=
  match s with
  | EmptyString => EmptyString
  | String c rest => String (ascii_lower c) (lower rest)
  end.

(** ** Subscribers, requests and the observable trace *)

(** A subscriber callback is known by what calling it on a payload does:
    return, or raise.  Callbacks are observers; they do not reach into the
    manager or into the caller's dictionaries. *)
Definition callback : Type := pyval -> result unit.

(** The registry of [EventManager]: event name to callbacks, in
    registration order. *)
Abbreviation slots := (gmap string (list callback)).

Record http_request : Type := HttpRequest {
  verb : string;                        (* the session method: get, post, ... *)
  url : string;
  data : pyval;                         (* [None], the raw payload or the JSON text *)
  headers : list (string * string)
}.

(** A received response: its status line, and what [await response.json()]
    gives (the decoded body, or the decoder's exception). *)
Record http_response : Type := HttpResponse {
  status : Z;
  json : result pyval
}.

(** What one call does that an observer can see, in order. *)
Inductive io : Type :=
  | Emit (name : string) (payload : pyval)
  | Invoke (name : string) (slot : nat) (payload : pyval)
  | SessionEnter
  | RequestSent (req : http_request)
  | ResponseHeaders (resp : http_response)
  | SessionClose
  | SessionExit.

(** The outside world of one call: the two readings of [time()] and the
    outcome of the HTTP exchange (a response, or the transport's exception). *)
Record env : Type := Env {
  time_start : float;
  time_headers : float;
  exchange : result http_response
}.

(** ** The manager object and the store *)

Record RequestManager : Type := Manager {
  _type : option string;
  domain : string;
  auth : option string;
  suspended : bool;
  ping : float;
  _slots : slots
}.

Abbreviation loc := nat.

(** What a call can change: the manager object and the dictionary objects
    it holds references to. *)
Record store : Type := Store {
  self : RequestManager;
  heap : gmap loc dict
}.

(** A computation changes the store, leaves a trace, and returns or raises;
    what was done before a [raise] stays done. *)
Definition M (A : Type) : Type := store -> result A * store * list io.

Definition ret {A : Type} (a : A) : M A := fun s => (Ok a, s, []).
Definition raise {A : Type} (e : exn) : M A := fun s => (Raise e, s, []).
Definition lift {A : Type} (r : result A) : M A := fun s => (r, s, []).
Definition bind {A B : Type} (m : M A) (k : A -> M B) : M B :=
  fun s =>
    match m s with
    | (Ok a, s1, t1) => let '(r, s2, t2) := k a s1 in (r, s2, t1 ++ t2)
    | (Raise e, s1, t1) => (Raise e, s1, t1)
    end.

Notation "'do' x '<-' m ';' k" := (bind m (fun x => k))
  (at level 10, x name, m at level 200, k at level 200,
   format "'[v' 'do'  x  '<-'  m ';' '/' k ']'").
Notation "m ';;' k" := (bind m (fun _ => k))
  (at level 100, k at level 200, right associativity).

(** [try: m / except: pass] *)
Definition try_pass (m : M unit) : M unit :=
  fun s => let '(_, s1, t1) := m s in (Ok tt, s1, t1).

Definition tell (ev : io) : M unit := fun s => (Ok tt, s, [ev]).

Definition get_self : M RequestManager := fun s => (Ok (self s), s, []).

(** [self.ping = t] *)
Definition with_ping (m : RequestManager) (t : float) : RequestManager :=
  Manager (_type m) (domain m) (auth m) (suspended m) t (_slots m).

Definition set_ping (t : float) : M unit :=
  fun s => (Ok tt, Store (with_ping (self s) t) (heap s), []).

(** Reading, creating, copying and updating dictionary objects by reference. *)
Definition deref (r : loc) : M dict :=
  fun s => (Ok (default [] (heap s !! r)), s, []).

Definition dict_new (d : dict) : M loc :=
  fun s =>
    let r := fresh (dom (heap s)) in
    (Ok r, Store (self s) (<[r := d]> (heap s)), []).

Definition dict_copy (r : loc) : M loc :=
  do d <- deref r; dict_new d.

Definition pop (r : loc) (k : string) : M unit :=
  fun s => (Ok tt, Store (self s) (alter (dict_pop k) r (heap s)), []).

(** The parameters of [_make] that a keyword argument can clash with, and
    whether a dictionary of keyword arguments has such an entry. *)
Definition make_parameters : list string := ["self"; "path"; "method"].

Definition clashes (d : dict) : bool :=
  existsb (fun kv => bool_decide (fst kv ∈ make_parameters)) d.

(** The HTTP methods [_make] accepts. *)
Definition http_methods : list string := ["GET"; "POST"; "PATCH"; "PUT"; "DELETE"].
Definition query_keys : list string := ["page"; "per_page"; "filter"; "include"; "sort"].

Section Pytero.
(** [str.lower] on a string that has characters outside ASCII; the case
    tables belong to the Python runtime. *)
Variable unicode_lower : string -> string.
(** [repr] of a container value ([str] of a tuple, list or dict falls back
    to it); it belongs to the Python runtime. *)
Variable repr : pyval -> string.
(** [json.dumps] on a dictionary's contents. *)
Variable dumps : dict -> string.
(** [EventManager.emit_event] (events.py): given the registry, the event
    name and the payload it returns or raises, having called the
    subscribers whose positions it lists. *)
Variable emit_event : slots -> string -> pyval -> result unit * list nat.
(** The clock and the server, as this call meets them. *)
Variable outside : env.

(** [s.lower()] *)
Definition str_lower (s : string) : string :=
  if is_ascii s then lower s else unicode_lower s.

(** [str(v)], what a [%s] conversion inserts. *)
Definition py_str (v : pyval) : string :=
  match v with
  | PNone => "None"
  | PBool true => "True"
  | PBool false => "False"
  | PInt z => pretty z
  | PStr s => s
  | _ => repr v
  end.

(** The arguments of [fmt % v]: the items of a tuple, or the single value. *)
Definition format_args (v : pyval) : list pyval :=
  match v with
  | PTuple items => items
  | _ => [v]
  end.

(** ['<pre>%s' % v] with one conversion. *)
Definition format_s1 (pre : string) (v : pyval) : result string :=
  match format_args v with
  | [a] => Ok (pre +:+ py_str a)
  | [] => Raise (TypeError "not enough arguments for format string")
  | _ => Raise (TypeError "not all arguments converted during string formatting")
  end.

(** ['<pre>%s<mid>%s' % v] with two conversions. *)
Definition format_s2 (pre mid : string) (v : pyval) : result string :=
  match format_args v with
  | [a; b] => Ok (pre +:+ py_str a +:+ mid +:+ py_str b)
  | [] | [_] => Raise (TypeError "not enough arguments for format string")
  | _ => Raise (TypeError "not all arguments converted during string formatting")
  end.

(** The items that iterating over [v] yields, as [filter(lambda i: i, v)]
    walks them: the elements of a list or tuple, the characters of a string,
    the keys of a dictionary. *)
Definition py_iter (v : pyval) : result (list pyval) :=
  match v with
  | PList items | PTuple items => Ok items
  | PStr s => Ok (List.map PStr (utf8_chars s))
  | PDict entries => Ok (List.map (fun kv => PStr (fst kv)) entries)
  | _ => Raise (TypeError "object is not iterable")
  end.

(** [sep.join(p)]: every item has to be a string. *)
Fixpoint str_join (sep : string) (p : list pyval) : result string :=
  match p with
  | [] => Ok ""
  | PStr s :: rest =>
      match rest with
      | [] => Ok s
      | _ => let? t := str_join sep rest in Ok (s +:+ sep +:+ t)
      end
  | _ => Raise (TypeError "sequence item: expected str instance")
  end.

(** ['&'.join(res)] for a list of strings. *)
Fixpoint join (sep : string) (res : list string) : string :=
  match res with
  | [] => ""
  | [s] => s
  | s :: rest => s +:+ sep +:+ join sep rest
  end.

(** *** [RequestManager._validate_query] (requests.py, lines 31-60)

    The method only calls [query.get], so it is a function of the
    dictionary's contents.  [res] is the local list the clauses are
    appended to; [1 < p > 50] is Python's chained comparison
    [1 < p and p > 50]. *)
Definition _validate_query (query : dict) : result string :=
  let res : list string := [] in
  let? res :=
    let p := dict_get query "page" in
    if truthy p then
      let? n := as_int p in
      if (1 <? n) && (n >? 50)
      then Raise (ValidationError "page number must be between 1 and 50")
      else Ok (res ++ ["page=" +:+ pretty n])
    else Ok res in
  let? res :=
    let p := dict_get query "per_page" in
    if truthy p then
      let? n := as_int p in
      if (1 <? n) && (n >? 100)
      then Raise (ValidationError "per_page number must be between 1 and 100")
      else Ok (res ++ ["per_page=" +:+ pretty n])
    else Ok res in
  let? res :=
    let p := dict_get query "filter" in
    if truthy p then
      let? c := format_s2 "filter[" "]=" p in
      Ok (res ++ [c])
    else Ok res in
  let? res :=
    let p := dict_get query "include" in
    if truthy p then
      let? items := py_iter p in
      let p := List.filter truthy items in
      if negb (Nat.eqb (length p) 0) then
        let? csv := str_join "," p in
        Ok (res ++ ["include=" +:+ csv])
      else Ok res
    else Ok res in
  let? res :=
    let p := dict_get query "sort" in
    if truthy p then
      let? c := format_s1 "sort=" p in
      Ok (res ++ [c])
    else Ok res in
  if Nat.eqb (length res) 0 then Ok ""
  else
    Ok (("?" +:+ hd "" res) +:+
        (if Nat.ltb 1 (length res) then "&" +:+ join "&" (tl res) else "")).

(** *** [RequestManager.get_headers] (lines 18-29) *)
Definition get_headers (m : RequestManager) : result (list (string * string)) :=
  match _type m with
  | None => Raise (TypeError "api type is required for requests")
  | Some ty =>
      match auth m with
      | None => Raise (TypeError "missing authorization for requests")
      | Some a =>
          Ok [("User-Agent", ty +:+ " Pytero v0.1.0");
              ("Content-Type", "application/json");
              ("Accept", "application/json");
              ("Authorization", "Bearer " +:+ a)]
      end
  end.

(** What an emission leaves in the trace: the call, then the subscriber
    calls the event manager made. *)
Definition emit_trace (registry : slots) (name : string) (payload : pyval)
  : list io :=
  Emit name payload
    :: List.map (fun i => Invoke name i payload)
                (snd (emit_event registry name payload)).

(** [await super().emit_event(name, payload)] *)
Definition super_emit_event (name : string) (payload : pyval) : M unit :=
  fun s =>
    (fst (emit_event (_slots (self s)) name payload), s,
     emit_trace (_slots (self s)) name payload).

(** *** [RequestManager.__debug] (lines 133-137) *)
Definition __debug (message : string) : M unit :=
  try_pass (super_emit_event "debug" (PStr ("[debug] " +:+ message))).

(** Body selection in [_make] (lines 66-78); [params] is never [None]
    for a [**params] parameter. *)
Definition select_body (params : loc) : M pyval :=
  do d <- deref params;
  let p := dict_get d "raw" in
  if truthy p then
    __debug "sending raw byte payload" ;;
    ret p
  else
    do copy <- dict_copy params;
    foldr (fun key rest => pop copy key ;; rest) (ret tt) query_keys ;;
    do c <- deref copy;
    if negb (Nat.eqb (length c) 0) then
      __debug "sending json payload" ;;
      ret (PStr (dumps c))
    else ret PNone.

(** [v[k]] for a string key and [v[0]]. *)
Definition getitem_str (v : pyval) (k : string) : result pyval :=
  match v with
  | PDict entries =>
      match List.find (fun kv => String.eqb (fst kv) k) entries with
      | Some kv => Ok (snd kv)
      | None => Raise (KeyError k)
      end
  | PList _ | PTuple _ | PStr _ =>
      Raise (TypeError "indices must be integers or slices, not str")
  | _ => Raise (TypeError "object is not subscriptable")
  end.

Definition getitem_0 (v : pyval) : result pyval :=
  match v with
  | PList (x :: _) | PTuple (x :: _) => Ok x
  | PList [] | PTuple [] => Raise (IndexError "index out of range")
  | PStr s =>
      match utf8_chars s with
      | c :: _ => Ok (PStr c)
      | [] => Raise (IndexError "string index out of range")
      end
  | PDict _ => Raise (KeyError "0")
  | _ => Raise (TypeError "object is not subscriptable")
  end.

(** [err['errors'][0]['code']] *)
Definition error_code (err : pyval) : result pyval :=
  let? errors := getitem_str err "errors" in
  let? first := getitem_0 errors in
  getitem_str first "code".

(** Classification of the response in [_make] (lines 98-116). *)
Definition classify (response : http_response) : M pyval :=
  if status response =? 204 then ret PNone
  else if (status response =? 200) || (status response =? 201) then
    do data <- lift (json response);
    try_pass (super_emit_event "receive" data) ;;
    ret data
  else if (400 <=? status response) && (status response <? 500) then
    do err <- lift (json response);
    do code <- lift (error_code err);
    raise (PteroAPIError code err)
  else
    raise (RequestError
             ("pterodactyl api returned an invalid or unacceptable" +:+
              " response (status: " +:+ pretty (status response) +:+ ")")).

(** [async with ClientSession() as session: body]: the session is left
    on every path out of the block. *)
Definition with_session {A : Type} (body : M A) : M A :=
  fun s =>
    let '(r, s1, t1) := body s in
    (r, s1, SessionEnter :: t1 ++ [SessionExit]).

(** *** [RequestManager._make] (lines 62-116) *)
Definition _make (path method : string) (params : loc) : M pyval :=
  if negb (bool_decide (method ∈ http_methods)) then
    raise (ValueError ("invalid http method '" +:+ method +:+ "'"))
  else
    do body <- select_body params;
    do d <- deref params;
    do query <- lift (_validate_query d);
    do this <- get_self;
    do family <- lift (match _type this with
                       | Some ty => Ok (str_lower ty)
                       | None => Raise (AttributeError
                           "'NoneType' object has no attribute 'lower'")
                       end);
    let url := domain this +:+ "/api/" +:+ family +:+ path +:+ query in
    __debug "attempting to start session" ;;
    with_session (
      __debug ("attemping to perform request to " +:+ url) ;;
      let start := time_start outside in
      do hdrs <- lift (get_headers this);
      tell (RequestSent (HttpRequest (str_lower method) url body hdrs)) ;;
      do response <- lift (exchange outside);
      tell (ResponseHeaders response) ;;
      set_ping (time_headers outside - start)%float ;;
      __debug "ensuring session close before continuing" ;;
      tell SessionClose ;;
      __debug ("received status: " +:+ pretty (status response)) ;;
      classify response).

(** [await self._make(path, method, **data)] in a verb method called with
    the keyword arguments [data]: one named [method] is a second value for
    that parameter of [_make] and a [TypeError] at the call (so is one named
    [self] or [path], already at the verb method's own call); otherwise the
    keyword arguments make up a new dictionary, the callee's [params]. *)
Definition call_make (path method : string) (data : loc) : M pyval :=
  do d <- deref data;
  if clashes d then
    raise (TypeError "_make() got multiple values for an argument")
  else
    do params <- dict_copy data;
    _make path method params.

(** *** The verb methods (lines 118-131) *)
Definition rget (path : string) (data : loc) : M pyval :=
  call_make path "GET" data.
Definition rpost (path : string) (data : loc) : M pyval :=
  call_make path "POST" data.
Definition rpatch (path : string) (data : loc) : M pyval :=
  call_make path "PATCH" data.
Definition rput (path : string) (data : loc) : M pyval :=
  call_make path "PUT" data.
Definition rdelete (path : string) : M pyval :=
  do params <- dict_new []; _make path "DELETE" params.
End Pytero.

(** ** The event manager *)

(** Modelled from the spec: [EventManager.add_event_slot] of events.py, which
    is not among the sources.  Section 4.1: the callback is appended to the
    ordered list of the event name, and the list is created if absent. *)
Definition add_event_slot (name : string) (func : callback) (m : RequestManager)
  : RequestManager :=
  Manager (_type m) (domain m) (auth m) (suspended m) (ping m)
          (<[name := default [] (_slots m !! name) ++ [func]]> (_slots m)).

(** Modelled from the spec: the loop of [EventManager.emit_event] of
    events.py, which is not among the sources.  Section 4.1: every registered
    callback is invoked in registration order; one that fails neither stops
    the emission to the later ones nor propagates. *)
Fixpoint emit_each (cbs : list callback) (payload : pyval) (i : nat) : list nat :=
  match cbs with
  | [] => []
  | cb :: rest =>
      match cb payload with
      | Ok _ => i :: emit_each rest payload (S i)
      | Raise _ => i :: emit_each rest payload (S i)
      end
  end.

(** Modelled from the spec: [EventManager.emit_event] of events.py, which is
    not among the sources.  Section 4.1: with no subscriber the emission is a
    silent no-op; it never raises. *)
Definition EventManager_emit_event (registry : slots) (name : string)
    (payload : pyval) : result unit * list nat :=
  (Ok tt, emit_each (default [] (registry !! name)) payload 0).

(** An event manager that stops at the first failing callback and lets its
    exception through: what [_make] must still withstand. *)
Fixpoint emit_until_failure (cbs : list callback) (payload : pyval) (i : nat)
  : result unit * list nat :=
  match cbs with
  | [] => (Ok tt, [])
  | cb :: rest =>
      match cb payload with
      | Ok _ => let '(r, called) := emit_until_failure rest payload (S i) in
                (r, i :: called)
      | Raise e => (Raise e, [i])
      end
  end.

Definition failfast_emit_event (registry : slots) (name : string)
    (payload : pyval) : result unit * list nat :=
  emit_until_failure (default [] (registry !! name)) payload 0.

(** The same event manager with its exception swallowed: it invokes the
    same subscribers and always returns. *)
Definition contained_emit_event (registry : slots) (name : string)
    (payload : pyval) : result unit * list nat :=
  (Ok tt, snd (failfast_emit_event registry name payload)).

(** *** [RequestManager.__init__] (lines 10-16); the registry starts empty. *)
Definition __init__ (_type : option string) (domain : string)
    (auth : option string) : RequestManager :=
  Manager _type domain auth false (-1)%float ∅.

(** *** [on_receive] and [on_debug] (lines 139-148) *)
Definition on_receive (func : callback) : M callback :=
  fun s => (Ok func, Store (add_event_slot "receive" func (self s)) (heap s), []).

Definition on_debug (func : callback) : M callback :=
  fun s => (Ok func, Store (add_event_slot "debug" func (self s)) (heap s), []).



(** ** The specification's view of a query (section 3 and the table of 4.2) *)

Record QueryOptions : Type := Options {
  q_page : option Z;
  q_per_page : option Z;
  q_filter : option (string * string);
  q_include : option (list string);
  q_sort : option string
}.

(** The keyword arguments a caller passes for a record: one entry for each
    option that is present. *)
Definition supplied (o : QueryOptions) : dict :=
  from_option (fun n => [("page", PInt n)]) [] (q_page o) ++
  from_option (fun n => [("per_page", PInt n)]) [] (q_per_page o) ++
  from_option (fun fv => [("filter", PTuple [PStr (fst fv); PStr (snd fv)])]) []
              (q_filter o) ++
  from_option (fun l => [("include", PList (List.map PStr l))]) [] (q_include o) ++
  from_option (fun v => [("sort", PStr v)]) [] (q_sort o).

(** The include clause in the specification's words: empty entries are
    dropped before joining, and nothing is emitted when nothing remains. *)
Definition spec_include_clause (entries : list string) : list string :=
  match List.filter (fun e => negb (String.eqb e "")) entries with
  | [] => []
  | kept => ["include=" +:+ join "," kept]
  end.

(** The clauses in the fixed order page, per_page, filter, include, sort; an
    option whose value is falsy (0, the empty string) gives none. *)
Definition spec_clauses (o : QueryOptions) : list string :=
  from_option (fun n => if n =? 0 then [] else ["page=" +:+ pretty n]) []
              (q_page o) ++
  from_option (fun n => if n =? 0 then [] else ["per_page=" +:+ pretty n]) []
              (q_per_page o) ++
  from_option (fun fv => ["filter[" +:+ fst fv +:+ "]=" +:+ snd fv]) []
              (q_filter o) ++
  from_option spec_include_clause [] (q_include o) ++
  from_option (fun v => if String.eqb v "" then [] else ["sort=" +:+ v]) []
              (q_sort o).

(** The empty string for no clause, otherwise [?] and the clauses joined
    by [&]. *)
Definition spec_query_string (clauses : list string) : string :=
  match clauses with
  | [] => ""
  | _ => "?" +:+ join "&" clauses
  end.

(** What each option contributes to [res], by itself: no clause or one
    clause, or the exception its branch raises. *)
Section Contributions.
Variable repr : pyval -> string.

Definition int_clause (prefix : string) (bound : Z) (msg : string) (p : pyval)
  : result (list string) :=
  if truthy p then
    let? n := as_int p in
    if (1 <? n) && (n >? bound) then Raise (ValidationError msg)
    else Ok [prefix +:+ pretty n]
  else Ok [].

Definition filter_clause (p : pyval) : result (list string) :=
  if truthy p then let? c := format_s2 repr "filter[" "]=" p in Ok [c]
  else Ok [].

Definition include_clause (p : pyval) : result (list string) :=
  if truthy p then
    let? items := py_iter p in
    match List.filter truthy items with
    | [] => Ok []
    | kept => let? csv := str_join "," kept in Ok ["include=" +:+ csv]
    end
  else Ok [].

Definition sort_clause (p : pyval) : result (list string) :=
  if truthy p then let? c := format_s1 repr "sort=" p in Ok [c]
  else Ok [].

Definition clauses (query : dict) : result (list string) :=
  let? a := int_clause "page=" 50 "page number must be between 1 and 50"
                       (dict_get query "page") in
  let? b := int_clause "per_page=" 100
                       "per_page number must be between 1 and 100"
                       (dict_get query "per_page") in
  let? c := filter_clause (dict_get query "filter") in
  let? d := include_clause (dict_get query "include") in
  let? e := sort_clause (dict_get query "sort") in
  Ok (a ++ b ++ c ++ d ++ e).
End Contributions.

(** ** Reading a call's result *)

Definition outcome {A : Type} (run : result A * store * list io) : result A :=
  fst (fst run).
Definition final {A : Type} (run : result A * store * list io) : store :=
  snd (fst run).
Definition trace {A : Type} (run : result A * store * list io) : list io :=
  snd run.

(** The responses whose headers arrived, the requests sent and the payloads
    of the receive events emitted, in the order of the trace. *)
Fixpoint received (t : list io) : list http_response :=
  match t with
  | [] => []
  | ResponseHeaders resp :: rest => resp :: received rest
  | _ :: rest => received rest
  end.

Fixpoint sent (t : list io) : list http_request :=
  match t with
  | [] => []
  | RequestSent req :: rest => req :: sent rest
  | _ :: rest => sent rest
  end.

Fixpoint receive_events (t : list io) : list pyval :=
  match t with
  | [] => []
  | Emit name payload :: rest =>
      if String.eqb name "receive" then payload :: receive_events rest
      else receive_events rest
  | _ :: rest => receive_events rest
  end.

(** Session bookkeeping and debug emissions: the part of a trace that is
    neither a request, a response nor a receive event. *)
Definition housekeeping (ev : io) : bool :=
  match ev with
  | Emit name _ | Invoke name _ _ => String.eqb name "debug"
  | SessionEnter | SessionClose | SessionExit => true
  | RequestSent _ | ResponseHeaders _ => false
  end.

(** Body selection in the specification's words (section 4.2, step 2): a raw
    override is used as it is; otherwise the five query keys are stripped and
    what remains, if anything, is serialized. *)
Definition strip_query_keys (d : dict) : dict :=
  List.filter (fun kv => negb (bool_decide (fst kv ∈ query_keys))) d.

Definition spec_body (dumps : dict -> string) (d : dict) : pyval :=
  if truthy (dict_get d "raw") then dict_get d "raw"
  else
    match strip_query_keys d with
    | [] => PNone
    | rest => PStr (dumps rest)
    end.

(** What [_make] needs to get as far as the request: a query that validates,
    an API type and a credential. *)
Definition ready (repr : pyval -> string) (m : RequestManager) (d : dict) : Prop :=
  (exists query, _validate_query repr d = Ok query) /\
  is_Some (_type m) /\ is_Some (auth m).

(** Sample surroundings for concrete runs. *)
Definition demo_unicode_lower : string -> string := fun s => s.
Definition demo_repr : pyval -> string := fun _ => "<object>".
Definition demo_dumps : dict -> string := fun _ => "<json>".
Definition demo_failing : callback := fun _ => Raise (ValueError "subscriber failed").
Definition demo_quiet : callback := fun _ => Ok tt.
Definition demo_manager : RequestManager :=
  add_event_slot "debug" demo_failing
    (add_event_slot "receive" demo_quiet
       (add_event_slot "receive" demo_failing
          (__init__ (Some "Application") "https://panel.example" (Some "key")))).
Definition demo_params : dict :=
  [("sort", PStr "-name"); ("page", PInt 2); ("name", PStr "x")].
Definition demo_store : store := Store demo_manager {[ 0%nat := demo_params ]}.
Definition demo_env (resp : http_response) : env :=
  Env 10%float 12.5%float (Ok resp).
Definition demo_payload : pyval := PDict [("id", PInt 1)].
Definition demo_ok : http_response := HttpResponse 200 (Ok demo_payload).
Definition demo_not_found : http_response :=
  HttpResponse 404 (Ok (PDict [("errors", PList [PDict [("code", PStr "NotFound")]])])).
Definition demo_html_404 : http_response :=
  HttpResponse 404 (Raise (DecodeError "unexpected mimetype: text/html")).
Definition demo_request : http_request :=
  HttpRequest "get" "https://panel.example/api/application/users?page=2&sort=-name"
              (PStr "<json>")
              [("User-Agent", "Application Pytero v0.1.0");
               ("Content-Type", "application/json");
               ("Accept", "application/json");
               ("Authorization", "Bearer key")].
Definition demo_run
    (emit_event : slots -> string -> pyval -> result unit * list nat)
    (method : string) (resp : http_response) : result pyval * store * list io :=
  _make demo_unicode_lower demo_repr demo_dumps emit_event (demo_env resp) "/users" method 0%nat
        demo_store.

(** More sample surroundings: a transport that fails, managers without an
    API type or a credential, and a call through them. *)
Definition demo_env_down : env :=
  Env 10%float 12.5%float (Raise (ClientError "connection refused")).
Definition demo_store_of (m : RequestManager) (d : dict) : store :=
  Store m {[ 0%nat := d ]}.
Definition demo_untyped : RequestManager :=
  __init__ None "https://panel.example" (Some "key").
Definition demo_anonymous : RequestManager :=
  __init__ (Some "Application") "https://panel.example" None.
Definition demo_call
    (emit_event : slots -> string -> pyval -> result unit * list nat)
    (outside : env) (s : store) : result pyval * store * list io :=
  _make demo_unicode_lower demo_repr demo_dumps emit_event outside "/users" "GET" 0%nat s.
Definition demo_clashing_params : dict :=
  [("name", PStr "x"); ("method", PStr "POST")].
Definition demo_delete_request : http_request :=
  HttpRequest "delete" "https://panel.example/api/application/users/1" PNone
              [("User-Agent", "Application Pytero v0.1.0");
               ("Content-Type", "application/json");
               ("Accept", "application/json");
               ("Authorization", "Bearer key")].

(** ** The straight-line form of [_make]

    What a call with a supported method amounts to once the monadic plumbing
    is unfolded: the store and trace after body selection, and then the way
    out the call takes. *)
Section Summary.
Variable unicode_lower : string -> string.
Variable repr : pyval -> string.
Variable dumps : dict -> string.
Variable emit_event : slots -> string -> pyval -> result unit * list nat.
Variable outside : env.

(** The trace of [__debug message]. *)
Definition debug_trace (m : RequestManager) (message : string) : list io :=
  emit_trace emit_event (_slots m) "debug" (PStr ("[debug] " +:+ message)).

(** The store after body selection: a stripped copy of [params] was
    allocated unless the raw entry was used. *)
Definition body_store (s : store) (d : dict) : store :=
  if truthy (dict_get d "raw") then s
  else Store (self s) (<[fresh (dom (heap s)) := strip_query_keys d]> (heap s)).

Definition body_trace (m : RequestManager) (d : dict) : list io :=
  if truthy (dict_get d "raw") then debug_trace m "sending raw byte payload"
  else
    match strip_query_keys d with
    | [] => []
    | _ => debug_trace m "sending json payload"
    end.

Definition request_url (m : RequestManager) (ty path query : string) : string :=
  domain m +:+ "/api/" +:+ str_lower unicode_lower ty +:+ path +:+ query.

Definition request_headers (ty a : string) : list (string * string) :=
  [("User-Agent", ty +:+ " Pytero v0.1.0");
   ("Content-Type", "application/json");
   ("Accept", "application/json");
   ("Authorization", "Bearer " +:+ a)].

Definition make_summary (path method : string) (s : store) (d : dict)
  : result pyval * store * list io :=
  let m := self s in
  let s0 := body_store s d in
  let t0 := body_trace m d in
  match _validate_query repr d with
  | Raise e => (Raise e, s0, t0)
  | Ok query =>
      match _type m with
      | None =>
          (Raise (AttributeError "'NoneType' object has no attribute 'lower'"),
           s0, t0)
      | Some ty =>
          let url := request_url m ty path query in
          let t1 := t0 ++ debug_trace m "attempting to start session"
                       ++ SessionEnter
                       :: debug_trace m ("attemping to perform request to " +:+ url) in
          match auth m with
          | None =>
              (Raise (TypeError "missing authorization for requests"), s0,
               t1 ++ [SessionExit])
          | Some a =>
              let req := HttpRequest (str_lower unicode_lower method) url
                                     (spec_body dumps d)
                                     (request_headers ty a) in
              match exchange outside with
              | Raise e => (Raise e, s0, t1 ++ [RequestSent req; SessionExit])
              | Ok resp =>
                  let s1 := Store (with_ping m (time_headers outside
                                                - time_start outside)%float)
                                  (heap s0) in
                  (outcome (classify emit_event resp s1), s1,
                   t1 ++ RequestSent req :: ResponseHeaders resp
                      :: debug_trace m "ensuring session close before continuing"
                      ++ SessionClose
                      :: debug_trace m ("received status: "
                                        +:+ pretty (status resp))
                      ++ trace (classify emit_event resp s1) ++ [SessionExit])
              end
          end
      end
  end.
End Summary.

(** The payloads of the debug events emitted, and the session events, in the
    order of the trace. *)
Fixpoint debug_messages (t : list io) : list pyval :=
  match t with
  | [] => []
  | Emit name payload :: rest =>
      if String.eqb name "debug" then payload :: debug_messages rest
      else debug_messages rest
  | _ :: rest => debug_messages rest
  end.

Definition is_session (ev : io) : bool :=
  match ev with
  | SessionEnter | SessionClose | SessionExit => true
  | _ => false
  end.

Definition session_events (t : list io) : list io := List.filter is_session t.

(** The verb methods that take parameters, with the session method each one
    is meant to reach. *)
Definition verb_methods (unicode_lower : string -> string)
    (repr : pyval -> string) (dumps : dict -> string)
    (emit_event : slots -> string -> pyval -> result unit * list nat)
    (outside : env) : list ((string -> loc -> M pyval) * string) :=
  [(rget unicode_lower repr dumps emit_event outside, "get");
   (rpost unicode_lower repr dumps emit_event outside, "post");
   (rpatch unicode_lower repr dumps emit_event outside, "patch");
   (rput unicode_lower repr dumps emit_event outside, "put")].

(** ** Properties of [_validate_query] *)

Lemma append_empty_r (s : string) : s +:+ "" = s.
Proof.
  induction s as [|c s IH]; [done|].
  change (String c s +:+ "") with (String c (s +:+ "")). by rewrite IH.
Qed.

Lemma append_assoc (a b c : string) : (a +:+ b) +:+ c = a +:+ (b +:+ c).
Proof.
  induction a as [|x a IH]; [done|].
  change ((String x a +:+ b) +:+ c) with (String x ((a +:+ b) +:+ c)).
  by rewrite IH.
Qed.

Section QueryFacts.
Variable repr : pyval -> string.

Lemma dict_get_pop_eq (d : dict) (k : string) :
  dict_get (dict_pop k d) k = PNone.
Proof.
  induction d as [|[k' v] d IH]; [done|].
  unfold dict_pop in *. simpl.
  destruct (String.eqb k' k) eqn:E; simpl; [done|]. by rewrite E.
Qed.

Lemma dict_get_pop_ne (d : dict) (k k' : string) :
  k ≠ k' -> dict_get (dict_pop k d) k' = dict_get d k'.
Proof.
  intros Hne. induction d as [|[k0 v] d IH]; [done|].
  unfold dict_pop in *. simpl.
  destruct (String.eqb k0 k) eqn:E; simpl.
  - apply String.eqb_eq in E as ->.
    destruct (String.eqb k k') eqn:E'; [|done].
    by apply String.eqb_eq in E'.
  - by rewrite IH.
Qed.

Lemma dict_get_elem (d : dict) (k : string) (v : pyval) :
  NoDup d.*1 -> (k, v) ∈ d -> dict_get d k = v.
Proof.
  induction d as [|[k0 v0] d IH]; simpl; intros Hnd Hin.
  - by apply elem_of_nil in Hin.
  - apply NoDup_cons in Hnd as [Hk0 Hnd].
    apply elem_of_cons in Hin as [[= <- <-]|Hin].
    + by rewrite String.eqb_refl.
    + destruct (String.eqb k0 k) eqn:E; [|by apply IH].
      apply String.eqb_eq in E as ->. exfalso. apply Hk0.
      apply list_elem_of_fmap. by exists (k, v).
Qed.

Lemma dict_get_absent (d : dict) (k : string) :
  k ∉ d.*1 -> dict_get d k = PNone.
Proof.
  induction d as [|[k0 v0] d IH]; simpl; [done|]. intros Hk.
  apply not_elem_of_cons in Hk as [Hne Hk].
  destruct (String.eqb k0 k) eqn:E; [|by apply IH].
  by apply String.eqb_eq in E.
Qed.

(** Looking a key up does not depend on the order the entries came in. *)
Lemma dict_get_Permutation (d d' : dict) (k : string) :
  NoDup d'.*1 -> d ≡ₚ d' -> dict_get d k = dict_get d' k.
Proof.
  intros Hnd Hp.
  assert (NoDup d.*1) as Hnd0 by (by rewrite Hp).
  destruct (decide (k ∈ d'.*1)) as [Hin|Hout].
  - apply list_elem_of_fmap in Hin as ([k1 v] & -> & Hin). simpl.
    rewrite (dict_get_elem d' k1 v) by done.
    apply dict_get_elem; [done|]. by rewrite Hp.
  - rewrite (dict_get_absent d' k) by done.
    apply dict_get_absent. by rewrite Hp.
Qed.

Lemma supplied_NoDup (o : QueryOptions) : NoDup (supplied o).*1.
Proof.
  destruct o as [[?|] [?|] [?|] [?|] [?|]]; unfold supplied; simpl;
    refine (bool_decide_unpack _ _); vm_compute; exact I.
Qed.

Lemma dict_get_supplied (o : QueryOptions) :
  dict_get (supplied o) "page" = from_option PInt PNone (q_page o) /\
  dict_get (supplied o) "per_page" = from_option PInt PNone (q_per_page o) /\
  dict_get (supplied o) "filter" =
    from_option (fun fv => PTuple [PStr (fst fv); PStr (snd fv)]) PNone (q_filter o) /\
  dict_get (supplied o) "include" =
    from_option (fun l => PList (List.map PStr l)) PNone (q_include o) /\
  dict_get (supplied o) "sort" = from_option PStr PNone (q_sort o).
Proof.
  destruct o as [[?|] [?|] [?|] [?|] [?|]]; unfold supplied; simpl; done.
Qed.

Lemma filter_truthy_PStr (l : list string) :
  List.filter truthy (List.map PStr l) =
  List.map PStr (List.filter (fun e => negb (String.eqb e "")) l).
Proof.
  induction l as [|e l IH]; simpl; [done|].
  destruct (negb (String.eqb e "")); simpl; by rewrite IH.
Qed.

Lemma str_join_PStr (sep : string) (l : list string) :
  str_join sep (List.map PStr l) = Ok (join sep l).
Proof.
  induction l as [|e l IH]; simpl; [done|].
  destruct l as [|e' l]; [done|].
  change (str_join sep (List.map PStr (e' :: l))) with
    (str_join sep (PStr e' :: List.map PStr l)) in IH.
  simpl in *. by rewrite IH.
Qed.
End QueryFacts.

Section QueryTheorems.
Variable repr : pyval -> string.

#[local] Arguments str_join : simpl never.

(** What the guard of the page option lets through: it rejects exactly the
    values above 50, skips 0 and lets every other integer become a clause. *)
Lemma validate_query_page_guard (n : Z) :
  _validate_query repr [("page", PInt n)] =
  if n =? 0 then Ok ""
  else if n >? 50
       then Raise (ValidationError "page number must be between 1 and 50")
       else Ok ("?page=" +:+ pretty n).
Proof.
  unfold _validate_query. simpl.
  destruct (n =? 0) eqn:E0; simpl; [done|].
  destruct (n >? 50) eqn:E50; simpl.
  - replace (1 <? n) with true by lia. done.
  - rewrite andb_false_r. simpl. by rewrite append_empty_r.
Qed.


(** The closing expression of [_validate_query] is the specification's
    assembly of the clauses. *)
Lemma assemble_spec (res : list string) :
  (if Nat.eqb (length res) 0 then Ok ""
   else Ok (("?" +:+ hd "" res) +:+
            (if Nat.ltb 1 (length res) then "&" +:+ join "&" (tl res) else "")))
  = Ok (spec_query_string res).
Proof.
  destruct res as [|a [|b res]]; simpl; [done| |].
  - by rewrite append_empty_r.
  - by rewrite append_assoc.
Qed.

(** The imperative construction of [res] appends the contributions of the
    five options in the fixed order, whatever the dictionary's order. *)
Lemma validate_query_clauses (query : dict) :
  _validate_query repr query =
  let? res := clauses repr query in Ok (spec_query_string res).
Proof.
  unfold _validate_query, clauses.
  generalize (dict_get query "page") (dict_get query "per_page")
    (dict_get query "filter") (dict_get query "include")
    (dict_get query "sort").
  intros v1 v2 v3 v4 v5.
  unfold int_clause at 1.
  destruct (truthy v1); simpl;
    [destruct (as_int v1) as [n|]; simpl; [|done];
     destruct ((1 <? n) && (n >? 50)); simpl; [done|]|].
  all: unfold int_clause at 1.
  all: destruct (truthy v2); simpl;
    [destruct (as_int v2) as [m|]; simpl; [|done];
     destruct ((1 <? m) && (m >? 100)); simpl; [done|]|].
  all: unfold filter_clause.
  all: destruct (truthy v3); simpl;
    [destruct (format_s2 repr "filter[" "]=" v3) as [c|]; simpl; [|done]|].
  all: unfold include_clause.
  all: destruct (truthy v4); simpl;
    [destruct (py_iter v4) as [items|]; simpl; [|done];
     destruct (List.filter truthy items) as [|i kept]; cbn -[str_join];
     [|destruct (str_join "," (i :: kept)) as [csv|]; simpl; [|done]]|].
  all: unfold sort_clause.
  all: destruct (truthy v5); simpl;
    [destruct (format_s1 repr "sort=" v5) as [c5|]; simpl; [|done]|].
  all: rewrite ?append_empty_r, ?append_assoc; reflexivity.
Qed.
Lemma clauses_ext (q q' : dict) :
  (forall k, k ∈ query_keys -> dict_get q k = dict_get q' k) ->
  clauses repr q = clauses repr q'.
Proof.
  intros H. unfold clauses.
  rewrite !H by (unfold query_keys; set_solver). done.
Qed.

Lemma int_clause_typed (prefix : string) (bound : Z) (msg : string)
    (x : option Z) :
  int_clause prefix bound msg (from_option PInt PNone x) =
  match x with
  | Some n =>
      if (1 <? n) && (n >? bound) then Raise (ValidationError msg)
      else Ok (if n =? 0 then [] else [prefix +:+ pretty n])
  | None => Ok []
  end.
Proof.
  destruct x as [n|]; [|done]. unfold int_clause. simpl.
  destruct (n =? 0) eqn:E; simpl; [|done].
  replace (1 <? n) with false by lia. done.
Qed.

Lemma filter_clause_typed (x : option (string * string)) :
  filter_clause repr
    (from_option (fun fv => PTuple [PStr (fst fv); PStr (snd fv)]) PNone x) =
  Ok (from_option (fun fv => ["filter[" +:+ fst fv +:+ "]=" +:+ snd fv]) [] x).
Proof. by destruct x as [[f v]|]. Qed.

Lemma include_clause_typed (x : option (list string)) :
  include_clause
    (from_option (fun l => PList (List.map PStr l)) PNone x) =
  Ok (from_option spec_include_clause [] x).
Proof.
  destruct x as [l|]; [|done].
  unfold include_clause, spec_include_clause. simpl.
  rewrite filter_truthy_PStr.
  destruct l as [|e l]; [done|].
  change (negb (Nat.eqb (length (List.map PStr (e :: l))) 0)) with true.
  cbv iota.
  destruct (List.filter _ (e :: l)) as [|e' kept]; [done|].
  change (List.map PStr (e' :: kept)) with (PStr e' :: List.map PStr kept).
  cbv iota.
  change (PStr e' :: List.map PStr kept) with (List.map PStr (e' :: kept)).
  by rewrite str_join_PStr.
Qed.

Lemma sort_clause_typed (x : option string) :
  sort_clause repr (from_option PStr PNone x) =
  Ok (from_option (fun v => if String.eqb v "" then [] else ["sort=" +:+ v])
                  [] x).
Proof.
  destruct x as [v|]; [|done]. unfold sort_clause. simpl.
  by destruct (String.eqb v "").
Qed.

(** The options of a record that [_validate_query] accepts, and what it
    returns for them: the page may not exceed 50 and the page size 100. *)
Lemma validate_query_supplied (o : QueryOptions) (q : dict) :
  q ≡ₚ supplied o ->
  _validate_query repr q =
  match q_page o with
  | Some n =>
      if (1 <? n) && (n >? 50)
      then Raise (ValidationError "page number must be between 1 and 50")
      else
        match q_per_page o with
        | Some m =>
            if (1 <? m) && (m >? 100)
            then Raise (ValidationError
                          "per_page number must be between 1 and 100")
            else Ok (spec_query_string (spec_clauses o))
        | None => Ok (spec_query_string (spec_clauses o))
        end
  | None =>
      match q_per_page o with
      | Some m =>
          if (1 <? m) && (m >? 100)
          then Raise (ValidationError
                        "per_page number must be between 1 and 100")
          else Ok (spec_query_string (spec_clauses o))
      | None => Ok (spec_query_string (spec_clauses o))
      end
  end.
Proof.
  intros Hp. rewrite validate_query_clauses.
  rewrite (clauses_ext q (supplied o)); last first.
  { intros k _. apply dict_get_Permutation; [apply supplied_NoDup|done]. }
  unfold clauses.
  destruct (dict_get_supplied o) as (-> & -> & -> & -> & ->).
  rewrite !int_clause_typed, filter_clause_typed, include_clause_typed,
    sort_clause_typed.
  unfold spec_clauses.
  destruct o as [[n|] [m|] fl inc so]; simpl;
    repeat (match goal with
            | |- context [(1 <? ?x) && (?x >? ?b)] =>
                destruct ((1 <? x) && (x >? b))
            end; simpl); done.
Qed.

(** C4: for every query-options record that [_validate_query] accepts,
    supplied in any order, the result is the specification's assembly of
    the clauses in the fixed order page, per_page, filter, include, sort:
    empty include entries are dropped before the comma-join and the include
    clause is left out when nothing remains; no clause gives the empty
    string, otherwise [?] precedes the clauses joined by [&]. *)
Theorem validate_query_clause_order (o : QueryOptions) (q : dict) (s : string) :
  q ≡ₚ supplied o ->
  _validate_query repr q = Ok s ->
  s = spec_query_string (spec_clauses o).
Proof.
  intros Hp. rewrite (validate_query_supplied o q Hp).
  repeat case_match; congruence.
Qed.

(** C10: an option whose supplied value is falsy is skipped: the result is
    the one for the dictionary without that option, and such an option by
    itself gives the empty query string, with no clause and no range
    check. *)
Theorem validate_query_skips_falsy (q : dict) (k : string) :
  k ∈ query_keys ->
  truthy (dict_get q k) = false ->
  _validate_query repr q = _validate_query repr (dict_pop k q) /\
  _validate_query repr [(k, dict_get q k)] = Ok "".
Proof.
  intros Hk Hfalsy. unfold query_keys in Hk.
  rewrite !validate_query_clauses. unfold clauses.
  repeat (apply elem_of_cons in Hk as [->|Hk]);
    [..|by apply elem_of_nil in Hk].
  all: rewrite dict_get_pop_eq, !dict_get_pop_ne by done.
  all: simpl dict_get.
  all: unfold int_clause, filter_clause, include_clause, sort_clause.
  all: rewrite Hfalsy; simpl; done.
Qed.

(** C1, at an input below the range: the guard [1 < p > 50] lets page -1
    through, and the query string carries it. *)
Theorem validate_query_negative_page :
  _validate_query repr [("page", PInt (-1))] = Ok "?page=-1".
Proof. reflexivity. Qed.

(** The part of C1 the code does meet: in-range values are accepted with
    their clauses, and values above the upper bounds are rejected. *)
Lemma validate_query_in_range (n m : Z) :
  1 <= n <= 50 -> 1 <= m <= 100 ->
  _validate_query repr [("page", PInt n); ("per_page", PInt m)] =
  Ok ("?page=" +:+ pretty n +:+ "&per_page=" +:+ pretty m).
Proof.
  intros Hn Hm.
  rewrite (validate_query_supplied (Options (Some n) (Some m) None None None))
    by done.
  simpl. replace (n >? 50) with false by lia.
  replace (m >? 100) with false by lia. rewrite !andb_false_r.
  unfold spec_clauses. simpl.
  replace (n =? 0) with false by lia. replace (m =? 0) with false by lia.
  simpl. by rewrite append_assoc.
Qed.

Lemma validate_query_above_range (n : Z) :
  50 < n ->
  _validate_query repr [("page", PInt n)] =
  Raise (ValidationError "page number must be between 1 and 50").
Proof.
  intros Hn. rewrite validate_query_page_guard.
  replace (n =? 0) with false by lia. by replace (n >? 50) with true by lia.
Qed.
End QueryTheorems.

(** ** Properties of [_make] *)

Lemma received_app (t1 t2 : list io) :
  received (t1 ++ t2) = received t1 ++ received t2.
Proof.
  induction t1 as [|ev t1 IH]; [done|].
  destruct ev; simpl; by rewrite IH.
Qed.

Lemma sent_app (t1 t2 : list io) : sent (t1 ++ t2) = sent t1 ++ sent t2.
Proof.
  induction t1 as [|ev t1 IH]; [done|].
  destruct ev; simpl; by rewrite IH.
Qed.

Lemma receive_events_app (t1 t2 : list io) :
  receive_events (t1 ++ t2) = receive_events t1 ++ receive_events t2.
Proof.
  induction t1 as [|ev t1 IH]; [done|].
  destruct ev; simpl; try destruct (String.eqb _ _); simpl; by rewrite IH.
Qed.

Lemma housekeeping_quiet (t : list io) :
  Forall (fun ev => housekeeping ev = true) t ->
  received t = [] /\ sent t = [] /\ receive_events t = [].
Proof.
  induction 1 as [|ev t Hev _ (IH1 & IH2 & IH3)]; [done|].
  destruct ev; simpl in *; try done.
  apply String.eqb_eq in Hev as ->. done.
Qed.

Lemma strip_query_keys_pops (d : dict) :
  dict_pop "sort" (dict_pop "include" (dict_pop "filter"
    (dict_pop "per_page" (dict_pop "page" d)))) = strip_query_keys d.
Proof.
  unfold dict_pop, strip_query_keys.
  induction d as [|[k v] d IH]; [done|].
  cbn -[String.eqb bool_decide].
  destruct (bool_decide (k ∈ query_keys)) eqn:Hk.
  - apply bool_decide_eq_true in Hk. unfold query_keys in Hk.
    repeat (apply elem_of_cons in Hk as [->|Hk]);
      [..|by apply elem_of_nil in Hk]; simpl; exact IH.
  - apply bool_decide_eq_false in Hk. unfold query_keys in Hk.
    rewrite !not_elem_of_cons in Hk.
    destruct Hk as (H1 & H2 & H3 & H4 & H5 & _).
    apply String.eqb_neq in H1, H2, H3, H4, H5.
    cbn -[String.eqb]. rewrite H1. cbn -[String.eqb]. rewrite H2.
    cbn -[String.eqb]. rewrite H3. cbn -[String.eqb]. rewrite H4.
    cbn -[String.eqb]. rewrite H5. cbn -[String.eqb]. by rewrite IH.
Qed.

Section DispatchFacts.
Variable unicode_lower : string -> string.
Variable repr : pyval -> string.
Variable dumps : dict -> string.
Variable emit_event : slots -> string -> pyval -> result unit * list nat.
Variable outside : env.

(** A debug emission never raises and changes nothing: [except: pass]
    absorbs whatever the event manager lets through. *)
Lemma debug_run (message : string) (s : store) :
  __debug emit_event message s =
  (Ok tt, s,
   emit_trace emit_event (_slots (self s)) "debug"
              (PStr ("[debug] " +:+ message))).
Proof. reflexivity. Qed.

Lemma debug_trace_housekeeping (registry : slots) (payload : pyval) :
  Forall (fun ev => housekeeping ev = true)
         (emit_trace emit_event registry "debug" payload).
Proof.
  unfold emit_trace. constructor; [done|].
  apply Forall_fmap, Forall_true. done.
Qed.

Ltac quiet :=
  repeat match goal with
    | |- Forall _ (_ ++ _) => apply Forall_app; split
    | |- Forall _ (emit_trace _ _ "debug" _) => apply debug_trace_housekeeping
    | |- Forall _ [] => constructor
    | |- Forall _ (_ :: _) => constructor; [reflexivity|]
    | |- Forall _ _ => assumption
    end.

Lemma select_body_run (params : loc) (s : store) (d : dict) :
  heap s !! params = Some d ->
  exists h' t,
    select_body dumps emit_event params s =
      (Ok (spec_body dumps d), Store (self s) h', t) /\
    (forall r x, heap s !! r = Some x -> h' !! r = Some x) /\
    Forall (fun ev => housekeeping ev = true) t.
Proof.
  intros Hd. unfold select_body, spec_body.
  unfold bind at 1. unfold deref at 1. rewrite Hd.
  change (default [] (Some d)) with d.
  destruct (truthy (dict_get d "raw")) eqn:Hraw.
  - eexists (heap s), _.
    split; [|split; [done|]].
    + unfold bind. rewrite debug_run. by destruct s.
    + rewrite app_nil_r. apply debug_trace_housekeeping.
  - set (copy := fresh (dom (heap s))).
    assert (heap s !! copy = None) as Hfresh.
    { apply not_elem_of_dom, is_fresh. }
    set (h' := alter (dict_pop "sort")  copy
                 (alter (dict_pop "include") copy
                    (alter (dict_pop "filter") copy
                       (alter (dict_pop "per_page") copy
                          (alter (dict_pop "page") copy
                             (<[copy := d]> (heap s))))))).
    assert (h' !! copy = Some (strip_query_keys d)) as Hcopy.
    { unfold h'. rewrite !lookup_alter_eq, lookup_insert_eq. simpl.
      by rewrite strip_query_keys_pops. }
    assert (forall r x, heap s !! r = Some x -> h' !! r = Some x) as Hpres.
    { intros r x Hr. assert (copy ≠ r) by congruence.
      unfold h'. by rewrite !lookup_alter_ne, lookup_insert_ne. }
    unfold dict_copy, dict_new, deref, pop, bind, ret, query_keys.
    cbn -[__debug truthy dict_get fresh dom].
    rewrite Hd. cbn -[__debug truthy dict_get fresh dom].
    fold copy. fold h'. rewrite Hcopy.
    cbn -[__debug truthy dict_get fresh dom].
    destruct (strip_query_keys d) as [|kv rest] eqn:Hrest;
      cbn -[__debug truthy dict_get fresh dom].
    + exists h', []. done.
    + rewrite debug_run. cbn -[emit_trace].
      eexists h', _. split; [done|]. split; [done|].
      rewrite app_nil_r. apply debug_trace_housekeeping.
Qed.

(** Classification leaves the store alone. *)
Lemma classify_final (resp : http_response) (s : store) :
  final (classify emit_event resp s) = s.
Proof.
  unfold classify, final.
  destruct (status resp =? 204); [done|].
  destruct ((status resp =? 200) || (status resp =? 201)).
  { unfold bind, lift, try_pass, super_emit_event, ret.
    by destruct (json resp). }
  destruct ((400 <=? status resp) && (status resp <? 500)); [|done].
  unfold bind, lift, raise.
  destruct (json resp) as [err|]; [|done].
  by destruct (error_code err).
Qed.

Lemma classify_no_content (resp : http_response) (s : store) :
  status resp = 204 ->
  classify emit_event resp s = (Ok PNone, s, []).
Proof. intros H. unfold classify. by rewrite H. Qed.

Lemma classify_data (resp : http_response) (s : store) (data : pyval) :
  status resp = 200 \/ status resp = 201 ->
  json resp = Ok data ->
  classify emit_event resp s =
  (Ok data, s, emit_trace emit_event (_slots (self s)) "receive" data).
Proof.
  intros Hst Hjson. unfold classify.
  replace (status resp =? 204) with false by lia.
  replace ((status resp =? 200) || (status resp =? 201)) with true by lia.
  unfold bind, lift, try_pass, super_emit_event, ret. rewrite Hjson.
  by rewrite !app_nil_r.
Qed.

Lemma classify_error (resp : http_response) (s : store) :
  status resp <> 204 -> status resp <> 200 -> status resp <> 201 ->
  classify emit_event resp s =
  (if (400 <=? status resp) && (status resp <? 500) then
     match json resp with
     | Ok err =>
         match error_code err with
         | Ok code => Raise (PteroAPIError code err)
         | Raise e => Raise e
         end
     | Raise e => Raise e
     end
   else
     Raise (RequestError
              ("pterodactyl api returned an invalid or unacceptable" +:+
               " response (status: " +:+ pretty (status resp) +:+ ")")),
   s, []).
Proof.
  intros H1 H2 H3. unfold classify.
  replace (status resp =? 204) with false by lia.
  replace ((status resp =? 200) || (status resp =? 201)) with false by lia.
  destruct ((400 <=? status resp) && (status resp <? 500)); [|done].
  unfold bind, lift, raise.
  destruct (json resp) as [err|]; [|done].
  by destruct (error_code err).
Qed.

(** The shape of every run of [_make] with a supported method: it stops
    before the request, or the transport fails after the request was sent,
    or a response arrives and is classified. *)
Lemma make_cases (path method : string) (params : loc) (s : store) (d : dict) :
  heap s !! params = Some d ->
  method ∈ http_methods ->
  let run := _make unicode_lower repr dumps emit_event outside path method params s in
  exists h',
    (forall r x, heap s !! r = Some x -> h' !! r = Some x) /\
    ((~ ready repr (self s) d /\
      final run = Store (self s) h' /\
      (exists e, outcome run = Raise e) /\
      Forall (fun ev => housekeeping ev = true) (trace run))
     \/
     (exists pre req e,
        ready repr (self s) d /\
        exchange outside = Raise e /\
        final run = Store (self s) h' /\
        outcome run = Raise e /\
        trace run = pre ++ [RequestSent req; SessionExit] /\
        Forall (fun ev => housekeeping ev = true) pre /\
        data req = spec_body dumps d)
     \/
     (exists pre mid req resp,
        let s1 := Store (with_ping (self s)
                           (time_headers outside - time_start outside)%float) h' in
        ready repr (self s) d /\
        exchange outside = Ok resp /\
        final run = s1 /\
        outcome run = outcome (classify emit_event resp s1) /\
        trace run = pre ++ RequestSent req :: ResponseHeaders resp
                        :: mid ++ trace (classify emit_event resp s1)
                        ++ [SessionExit] /\
        Forall (fun ev => housekeeping ev = true) pre /\
        Forall (fun ev => housekeeping ev = true) mid /\
        data req = spec_body dumps d)).
Proof.
  intros Hd Hm run. subst run.
  destruct (_make unicode_lower repr dumps emit_event outside path method params s)
    as [[r s'] t] eqn:Hrun.
  unfold outcome, final, trace. cbn [fst snd].
  unfold _make in Hrun.
  rewrite (bool_decide_eq_true_2 _ Hm) in Hrun. cbv [negb] in Hrun.
  unfold bind at 1 in Hrun.
  destruct (select_body_run params s d Hd) as (h' & t0 & Hsel & Hpres & Ht0).
  rewrite Hsel in Hrun. clear Hsel.
  exists h'. split; [done|].
  pose proof (Hpres _ _ Hd) as Hd'.
  unfold bind at 1, deref at 1 in Hrun. cbn [heap] in Hrun.
  rewrite Hd' in Hrun.
  change (default [] (Some d)) with d in Hrun.
  unfold bind at 1, lift at 1 in Hrun.
  destruct (_validate_query repr d) as [query|e] eqn:Hvq.
  2:{ left. simplify_eq. rewrite app_nil_r.
      split; [intros [[q ?] _]; congruence|]. eauto. }
  unfold bind at 1, get_self at 1 in Hrun. cbn [self] in Hrun.
  unfold bind at 1, lift at 1 in Hrun.
  destruct (_type (self s)) as [ty|] eqn:Hty.
  2:{ left. simplify_eq. rewrite !app_nil_r.
      split; [intros (_ & [? ?] & _); congruence|]. eauto. }
  unfold bind at 1 in Hrun. rewrite debug_run in Hrun. cbn [self] in Hrun.
  unfold with_session in Hrun.
  unfold bind at 1 in Hrun. rewrite debug_run in Hrun. cbn [self] in Hrun.
  unfold bind at 1, lift at 1, get_headers in Hrun. rewrite Hty in Hrun.
  destruct (auth (self s)) as [a|] eqn:Hau.
  2:{ left. simplify_eq.
      split; [intros (_ & _ & [? ?]); congruence|].
      split; [done|]. split; [eauto|]. quiet. }
  assert (ready repr (self s) d) as Hready.
  { unfold ready. rewrite Hty, Hau. eauto. }
  unfold bind at 1, tell at 1 in Hrun.
  unfold bind at 1, lift at 1 in Hrun.
  destruct (exchange outside) as [resp|e] eqn:Hex.
  2:{ right; left.
      repeat (progress (cbn [app] in Hrun; rewrite <- ?app_assoc in Hrun)).
      match type of Hrun with
      | (_, _, ?a ++ ?b ++ SessionEnter :: ?c ++ RequestSent ?q :: _) = _ =>
          exists (a ++ b ++ SessionEnter :: c), q, e
      end.
      simplify_eq.
      split; [done|]. split; [done|]. split; [done|]. split; [done|].
      split; [by repeat (progress (cbn [app]; rewrite <- ?app_assoc))|].
      split; [|done]. quiet. }
  right; right.
  unfold bind at 1, tell at 1 in Hrun.
  unfold bind at 1, set_ping at 1 in Hrun. cbn [self heap] in Hrun.
  unfold bind at 1 in Hrun. rewrite debug_run in Hrun.
  cbn [self with_ping _slots] in Hrun.
  unfold bind at 1, tell at 1 in Hrun.
  unfold bind at 1 in Hrun. rewrite debug_run in Hrun.
  cbn [self with_ping _slots] in Hrun.
  set (s1 := Store _ h') in *.
  pose proof (classify_final resp s1) as Hfin.
  destruct (classify emit_event resp s1) as [[r1 s2] tc] eqn:Hcl.
  unfold final in Hfin. simpl in Hfin. subst s2.
  repeat (progress (cbn [app] in Hrun; rewrite <- ?app_assoc in Hrun)).
  match type of Hrun with
  | (_, _, ?a ++ ?b ++ SessionEnter :: ?c ++ RequestSent ?q
             :: ResponseHeaders _ :: ?m1 ++ SessionClose :: ?m2 ++ tc ++ _) = _ =>
      exists (a ++ b ++ SessionEnter :: c), (m1 ++ SessionClose :: m2), q, resp
  end.
  simplify_eq. rewrite Hcl. unfold outcome, trace. cbn [fst snd].
  split; [done|]. split; [done|]. split; [done|]. split; [done|].
  split.
  { repeat (progress (cbn [app]; rewrite <- ?app_assoc)). done. }
  split; [|split; [|done]]; quiet.
Qed.

Lemma emit_trace_no_exchange (registry : slots) (name : string) (payload : pyval) :
  received (emit_trace emit_event registry name payload) = [] /\
  sent (emit_trace emit_event registry name payload) = [].
Proof.
  unfold emit_trace. simpl.
  induction (snd (emit_event registry name payload)) as [|i l IH]; done.
Qed.

Lemma emit_trace_receive (registry : slots) (payload : pyval) :
  receive_events (emit_trace emit_event registry "receive" payload) = [payload].
Proof.
  unfold emit_trace. simpl. f_equal.
  induction (snd (emit_event registry "receive" payload)) as [|i l IH]; done.
Qed.

Lemma classify_no_exchange (resp : http_response) (s : store) :
  received (trace (classify emit_event resp s)) = [] /\
  sent (trace (classify emit_event resp s)) = [].
Proof.
  unfold classify, trace.
  destruct (status resp =? 204); [done|].
  destruct ((status resp =? 200) || (status resp =? 201)).
  { unfold bind, lift, try_pass, super_emit_event, ret.
    destruct (json resp); [|done]. cbn [snd]. rewrite !app_nil_r, app_nil_l.
    apply emit_trace_no_exchange. }
  destruct ((400 <=? status resp) && (status resp <? 500)); [|done].
  unfold bind, lift, raise.
  destruct (json resp) as [err|]; [|done].
  by destruct (error_code err).
Qed.

(** A call whose trace shows the headers of [resp] went through every
    earlier step, and ends with the classification of [resp]. *)
Lemma make_received (path method : string) (params : loc) (s : store)
    (d : dict) (resp : http_response) :
  heap s !! params = Some d ->
  let run := _make unicode_lower repr dumps emit_event outside path method params s in
  resp ∈ received (trace run) ->
  exists h' pre mid req,
    let s1 := Store (with_ping (self s)
                       (time_headers outside - time_start outside)%float) h' in
    (forall r x, heap s !! r = Some x -> h' !! r = Some x) /\
    exchange outside = Ok resp /\
    final run = s1 /\
    outcome run = outcome (classify emit_event resp s1) /\
    trace run = pre ++ RequestSent req :: ResponseHeaders resp
                    :: mid ++ trace (classify emit_event resp s1)
                    ++ [SessionExit] /\
    Forall (fun ev => housekeeping ev = true) pre /\
    Forall (fun ev => housekeeping ev = true) mid /\
    method ∈ http_methods /\ ready repr (self s) d.
Proof.
  intros Hd run Hin.
  destruct (decide (method ∈ http_methods)) as [Hm|Hm].
  2:{ subst run. unfold _make in Hin.
      rewrite (bool_decide_eq_false_2 _ Hm) in Hin.
      by apply elem_of_nil in Hin. }
  destruct (make_cases path method params s d Hd Hm) as (h' & Hpres & Hcases).
  fold run in Hcases.
  destruct Hcases as [(_ & _ & _ & Hq)|[(pre & req & e & _ & _ & _ & _ & Ht & Hq & _)
                     |(pre & mid & req & resp' & Hrd & Hex & Hfin & Hout & Ht & Hpre & Hmid & _)]].
  - apply housekeeping_quiet in Hq as (Hq & _). rewrite Hq in Hin.
    by apply elem_of_nil in Hin.
  - apply housekeeping_quiet in Hq as (Hq & _).
    rewrite Ht, received_app, Hq in Hin. by apply elem_of_nil in Hin.
  - pose proof (housekeeping_quiet _ Hpre) as (Hq1 & _).
    pose proof (housekeeping_quiet _ Hmid) as (Hq2 & _).
    rewrite Ht, received_app, Hq1 in Hin. simpl in Hin.
    rewrite !received_app, Hq2 in Hin.
    rewrite (proj1 (classify_no_exchange _ _)) in Hin. simpl in Hin.
    apply list_elem_of_singleton in Hin as ->.
    exists h', pre, mid, req. done.
Qed.

(** C3: in a call that completed its HTTP exchange, status 204 returns
    [None] and no receive event is emitted; status 200 or 201 with a body
    that decodes to [data] emits exactly one receive event, carrying
    [data], and returns [data]. *)
Theorem make_success_classification (path method : string) (params : loc)
    (s : store) (d : dict) (resp : http_response) :
  heap s !! params = Some d ->
  resp ∈ received
    (trace (_make unicode_lower repr dumps emit_event outside path method params s)) ->
  (status resp = 204 ->
     outcome (_make unicode_lower repr dumps emit_event outside path method params s)
       = Ok PNone /\
     receive_events
       (trace (_make unicode_lower repr dumps emit_event outside path method params s))
       = []) /\
  (status resp = 200 \/ status resp = 201 ->
     forall data, json resp = Ok data ->
       outcome (_make unicode_lower repr dumps emit_event outside path method params s)
         = Ok data /\
       receive_events
         (trace (_make unicode_lower repr dumps emit_event outside path method params s))
         = [data]).
Proof.
  intros Hd Hin.
  set (run := _make unicode_lower repr dumps emit_event outside path method params s) in *.
  destruct (make_received path method params s d resp Hd Hin)
    as (h' & pre & mid & req & _ & _ & _ & Hout & Ht & Hpre & Hmid & _).
  fold run in Hout, Ht.
  apply housekeeping_quiet in Hpre as (_ & _ & Hpre).
  apply housekeeping_quiet in Hmid as (_ & _ & Hmid).
  rewrite Hout, Ht. rewrite receive_events_app, Hpre. simpl.
  rewrite !receive_events_app, Hmid. simpl. rewrite app_nil_r.
  split.
  - intros H204. by rewrite classify_no_content.
  - intros Hst data Hjson. rewrite (classify_data _ _ data) by done.
    split; [done|]. apply emit_trace_receive.
Qed.

(** C2, as the code has it: in a call that completed its HTTP exchange
    with a status other than 204, 200 and 201, a 4xx response whose body
    decodes and holds [errors[0].code] raises [PteroAPIError] with that
    code and the whole decoded body; a 4xx response whose body does not
    decode, or lacks the code, lets the decoder's or the lookup's exception
    through; every status outside [400, 500) raises [RequestError] with the
    status in its message. *)
Theorem make_error_classification (path method : string) (params : loc)
    (s : store) (d : dict) (resp : http_response) :
  heap s !! params = Some d ->
  resp ∈ received
    (trace (_make unicode_lower repr dumps emit_event outside path method params s)) ->
  status resp <> 204 -> status resp <> 200 -> status resp <> 201 ->
  (400 <= status resp < 500 ->
     forall err, json resp = Ok err ->
       (forall code, error_code err = Ok code ->
          outcome (_make unicode_lower repr dumps emit_event outside path method params s)
            = Raise (PteroAPIError code err)) /\
       (forall e, error_code err = Raise e ->
          outcome (_make unicode_lower repr dumps emit_event outside path method params s)
            = Raise e)) /\
  (400 <= status resp < 500 ->
     forall e, json resp = Raise e ->
       outcome (_make unicode_lower repr dumps emit_event outside path method params s)
         = Raise e) /\
  (status resp < 400 \/ 500 <= status resp ->
     outcome (_make unicode_lower repr dumps emit_event outside path method params s) =
     Raise (RequestError
              ("pterodactyl api returned an invalid or unacceptable" +:+
               " response (status: " +:+ pretty (status resp) +:+ ")"))).
Proof.
  intros Hd Hin H204 H200 H201.
  set (run := _make unicode_lower repr dumps emit_event outside path method params s) in *.
  destruct (make_received path method params s d resp Hd Hin)
    as (h' & pre & mid & req & _ & _ & _ & Hout & _).
  fold run in Hout. rewrite Hout, classify_error by done.
  unfold outcome. cbn [fst].
  split; [|split].
  - intros Hst err Hjson.
    replace ((400 <=? status resp) && (status resp <? 500)) with true by lia.
    rewrite Hjson. split.
    + intros code Hcode. by rewrite Hcode.
    + intros e He. by rewrite He.
  - intros Hst e Hjson.
    replace ((400 <=? status resp) && (status resp <? 500)) with true by lia.
    by rewrite Hjson.
  - intros Hst.
    by replace ((400 <=? status resp) && (status resp <? 500)) with false by lia.
Qed.

(** C5: the body of every request [_make] sends is the raw entry when it
    is truthy, and otherwise the serialization of what remains of [params]
    once the five query keys are stripped, or [None] when nothing remains. *)
Theorem make_body_selection (path method : string) (params : loc)
    (s : store) (d : dict) (req : http_request) :
  heap s !! params = Some d ->
  req ∈ sent (trace (_make unicode_lower repr dumps emit_event outside path method params s)) ->
  data req =
    if truthy (dict_get d "raw") then dict_get d "raw"
    else match strip_query_keys d with
         | [] => PNone
         | rest => PStr (dumps rest)
         end.
Proof.
  intros Hd Hin.
  change (data req = spec_body dumps d).
  destruct (decide (method ∈ http_methods)) as [Hm|Hm].
  2:{ unfold _make in Hin. rewrite (bool_decide_eq_false_2 _ Hm) in Hin.
      by apply elem_of_nil in Hin. }
  destruct (make_cases path method params s d Hd Hm) as (h' & Hpres & Hcases).
  destruct Hcases as [(_ & _ & _ & Hq)|[(pre & req' & e & _ & _ & _ & _ & Ht & Hq & Hdata)
                     |(pre & mid & req' & resp & _ & _ & _ & _ & Ht & Hpre & Hmid & Hdata)]].
  - apply housekeeping_quiet in Hq as (_ & Hq & _). rewrite Hq in Hin.
    by apply elem_of_nil in Hin.
  - apply housekeeping_quiet in Hq as (_ & Hq & _).
    rewrite Ht, sent_app, Hq in Hin. simpl in Hin.
    by apply list_elem_of_singleton in Hin as ->.
  - apply housekeeping_quiet in Hpre as (_ & Hq1 & _).
    apply housekeeping_quiet in Hmid as (_ & Hq2 & _).
    rewrite Ht, sent_app, Hq1 in Hin. simpl in Hin.
    rewrite !sent_app, Hq2 in Hin.
    rewrite (proj2 (classify_no_exchange _ _)) in Hin. simpl in Hin.
    by apply list_elem_of_singleton in Hin as ->.
Qed.

(** C6: with a method outside GET, POST, PATCH, PUT and DELETE, [_make]
    raises [ValueError] at once: the store is untouched and the trace is
    empty, so no session was entered, no request sent and no event emitted. *)
Theorem make_invalid_method (path method : string) (params : loc) (s : store) :
  method ∉ http_methods ->
  _make unicode_lower repr dumps emit_event outside path method params s =
  (Raise (ValueError ("invalid http method '" +:+ method +:+ "'")), s, []).
Proof.
  intros Hm. unfold _make. by rewrite (bool_decide_eq_false_2 _ Hm).
Qed.


(** C9: [_make] leaves the dictionary [params] refers to, and every other
    dictionary that existed before the call, as it was, whether the call
    returns or raises: the query keys are popped from a copy. *)
Theorem make_leaves_params (path method : string) (params : loc) (s : store)
    (d : dict) :
  heap s !! params = Some d ->
  heap (final (_make unicode_lower repr dumps emit_event outside path method params s))
    !! params = Some d /\
  (forall r x,
     heap s !! r = Some x ->
     heap (final (_make unicode_lower repr dumps emit_event outside path method params s))
       !! r = Some x).
Proof.
  intros Hd.
  set (run := _make unicode_lower repr dumps emit_event outside path method params s) in *.
  cut (forall r x, heap s !! r = Some x -> heap (final run) !! r = Some x).
  { intros H. split; [by apply H|done]. }
  destruct (decide (method ∈ http_methods)) as [Hm|Hm].
  2:{ subst run. by rewrite make_invalid_method. }
  destruct (make_cases path method params s d Hd Hm) as (h' & Hpres & Hcases).
  fold run in Hcases.
  destruct Hcases as [(_ & Hfin & _)|[(pre & req' & e & _ & _ & Hfin & _)
                     |(pre & mid & req' & resp & _ & _ & Hfin & _)]];
    by rewrite Hfin.
Qed.

(** A ready call with a supported method whose exchange yields [resp] does
    complete it, and ends with the classification of [resp]. *)
Lemma make_completes (path method : string) (params : loc) (s : store)
    (d : dict) (resp : http_response) :
  heap s !! params = Some d ->
  method ∈ http_methods ->
  ready repr (self s) d ->
  exchange outside = Ok resp ->
  let run := _make unicode_lower repr dumps emit_event outside path method params s in
  exists h' pre,
    let s1 := Store (with_ping (self s)
                       (time_headers outside - time_start outside)%float) h' in
    received (trace run) = [resp] /\
    outcome run = outcome (classify emit_event resp s1) /\
    trace run = pre ++ trace (classify emit_event resp s1) ++ [SessionExit].
Proof.
  intros Hd Hm Hready Hex run.
  destruct (make_cases path method params s d Hd Hm) as (h' & Hpres & Hcases).
  fold run in Hcases.
  destruct Hcases as [(Hnot & _)|[(pre & req & e & _ & Hex' & _)
                     |(pre & mid & req & resp' & _ & Hex' & _ & Hout & Ht & Hpre & Hmid & _)]].
  - done.
  - congruence.
  - assert (resp' = resp) as -> by congruence.
    exists h', (pre ++ RequestSent req :: ResponseHeaders resp :: mid).
    split; [|split; [done|]].
    + apply housekeeping_quiet in Hpre as (Hq1 & _).
      apply housekeeping_quiet in Hmid as (Hq2 & _).
      rewrite Ht, received_app, Hq1. simpl.
      rewrite !received_app, Hq2.
      by rewrite (proj1 (classify_no_exchange _ _)).
    + rewrite Ht. by rewrite <- app_assoc.
Qed.
End DispatchFacts.

(** ** Subscribers that fail *)

Lemma emit_each_all (cbs : list callback) (payload : pyval) (i : nat) :
  emit_each cbs payload i = seq i (length cbs).
Proof.
  revert i. induction cbs as [|cb cbs IH]; intros i; simpl; [done|].
  destruct (cb payload); by rewrite IH.
Qed.

(** With the event manager of the specification every subscriber of the
    event is called, in registration order, whatever the earlier ones did. *)
Lemma emit_event_invokes_all (registry : slots) (name : string)
    (payload : pyval) (i : nat) (cb : callback) :
  default [] (registry !! name) !! i = Some cb ->
  Invoke name i payload ∈ emit_trace EventManager_emit_event registry name payload.
Proof.
  intros Hi. unfold emit_trace, EventManager_emit_event. cbn [snd].
  rewrite emit_each_all. apply elem_of_cons. right.
  apply list_elem_of_fmap. exists i. split; [done|].
  apply elem_of_seq. apply lookup_lt_Some in Hi. lia.
Qed.

(** C7: when the response classifies as success (204 with payload [None],
    or 200/201 with the decoded body), the call returns its payload whatever
    the event manager does with failing subscribers, even one that lets
    their exceptions through during receive or debug emission; and with the
    event manager of the specification every receive subscriber is called on
    a 200/201 payload, the ones registered after a failing one included. *)
Theorem subscriber_failures_contained (unicode_lower : string -> string)
    (repr : pyval -> string)
    (dumps : dict -> string)
    (emit_event : slots -> string -> pyval -> result unit * list nat)
    (outside : env) (path method : string) (params : loc) (s : store)
    (d : dict) (resp : http_response) (data : pyval) :
  heap s !! params = Some d ->
  resp ∈ received
    (trace (_make unicode_lower repr dumps emit_event outside path method params s)) ->
  (status resp = 204 /\ data = PNone) \/
  ((status resp = 200 \/ status resp = 201) /\ json resp = Ok data) ->
  outcome (_make unicode_lower repr dumps emit_event outside path method params s) = Ok data /\
  (status resp <> 204 ->
   forall i cb,
     default [] (_slots (self s) !! "receive") !! i = Some cb ->
     Invoke "receive" i data ∈
       trace (_make unicode_lower repr dumps EventManager_emit_event outside
                    path method params s)).
Proof.
  intros Hd Hin Hsuccess.
  destruct (make_received unicode_lower repr dumps emit_event outside path method params s d
              resp Hd Hin)
    as (h' & pre & mid & req & _ & Hex & _ & Hout & _ & _ & _ & Hm & Hready).
  split.
  - rewrite Hout. destruct Hsuccess as [[H204 ->]|[Hst Hjson]].
    + by rewrite classify_no_content.
    + by rewrite (classify_data _ _ _ data).
  - intros Hnot i cb Hi.
    destruct Hsuccess as [[H204 _]|[Hst Hjson]]; [done|].
    destruct (make_completes unicode_lower repr dumps EventManager_emit_event outside
                path method params s d resp Hd Hm Hready Hex)
      as (h2 & pre2 & _ & _ & ->).
    rewrite (classify_data _ _ _ data) by done.
    unfold trace. cbn [snd self with_ping _slots].
    apply elem_of_app. right. apply elem_of_app. left.
    by apply emit_event_invokes_all with cb.
Qed.

(** ** The theorems at concrete calls *)

Lemma demo_store_params : heap demo_store !! 0%nat = Some demo_params.
Proof. vm_compute. reflexivity. Qed.

Lemma demo_run_received
    (emit_event : slots -> string -> pyval -> result unit * list nat)
    (resp : http_response) :
  resp ∈ received (trace (demo_run emit_event "GET" resp)).
Proof.
  destruct (make_completes demo_unicode_lower demo_repr demo_dumps emit_event (demo_env resp)
              "/users" "GET" 0%nat demo_store demo_params resp)
    as (h' & pre & Hr & _); [apply demo_store_params|compute_done| |done|].
  - split; [by eexists|]. split; by eexists.
  - unfold demo_run. rewrite Hr. apply list_elem_of_singleton. reflexivity.
Qed.

Lemma validate_query_clause_order_witness :
  [("sort", PStr "-name");
   ("include", PList [PStr ""; PStr "a"; PStr ""; PStr "b"]);
   ("page", PInt 2)]
    ≡ₚ supplied (Options (Some 2) None None (Some [""; "a"; ""; "b"]) (Some "-name")) /\
  _validate_query demo_repr
    [("sort", PStr "-name");
     ("include", PList [PStr ""; PStr "a"; PStr ""; PStr "b"]);
     ("page", PInt 2)] = Ok "?page=2&include=a,b&sort=-name" /\
  "?page=2&include=a,b&sort=-name" =
  spec_query_string
    (spec_clauses (Options (Some 2) None None (Some [""; "a"; ""; "b"]) (Some "-name"))).
Proof.
  assert ([("sort", PStr "-name");
           ("include", PList [PStr ""; PStr "a"; PStr ""; PStr "b"]);
           ("page", PInt 2)]
            ≡ₚ supplied (Options (Some 2) None None (Some [""; "a"; ""; "b"])
                                 (Some "-name"))) as Hp.
  { unfold supplied. simpl. symmetry.
    apply (Permutation_rev
             [("page", PInt 2);
              ("include", PList [PStr ""; PStr "a"; PStr ""; PStr "b"]);
              ("sort", PStr "-name")]). }
  split; [exact Hp|]. split; [reflexivity|].
  apply (validate_query_clause_order demo_repr _ _ _ Hp). reflexivity.
Defined.

Lemma validate_query_skips_falsy_witness :
  ("page" ∈ query_keys) /\
  truthy (dict_get [("page", PInt 0); ("sort", PStr "id")] "page") = false /\
  _validate_query demo_repr [("page", PInt 0); ("sort", PStr "id")] =
    _validate_query demo_repr (dict_pop "page" [("page", PInt 0); ("sort", PStr "id")]) /\
  _validate_query demo_repr
    [("page", dict_get [("page", PInt 0); ("sort", PStr "id")] "page")] = Ok "".
Proof.
  assert ("page" ∈ query_keys) as Hk by (unfold query_keys; apply list_elem_of_here).
  split; [exact Hk|]. split; [reflexivity|].
  apply (validate_query_skips_falsy demo_repr _ _ Hk). reflexivity.
Defined.

Lemma make_success_classification_witness :
  heap demo_store !! 0%nat = Some demo_params /\
  demo_ok ∈ received (trace (demo_run failfast_emit_event "GET" demo_ok)) /\
  outcome (demo_run failfast_emit_event "GET" demo_ok) = Ok demo_payload /\
  receive_events (trace (demo_run failfast_emit_event "GET" demo_ok))
    = [demo_payload].
Proof.
  split; [apply demo_store_params|]. split; [apply demo_run_received|].
  apply (make_success_classification demo_unicode_lower demo_repr demo_dumps failfast_emit_event
           (demo_env demo_ok) "/users" "GET" 0%nat demo_store demo_params
           demo_ok demo_store_params (demo_run_received _ _));
    [left|]; reflexivity.
Defined.

Lemma make_error_classification_witness :
  heap demo_store !! 0%nat = Some demo_params /\
  demo_not_found ∈
    received (trace (demo_run EventManager_emit_event "GET" demo_not_found)) /\
  status demo_not_found <> 204 /\ status demo_not_found <> 200 /\
  status demo_not_found <> 201 /\
  outcome (demo_run EventManager_emit_event "GET" demo_not_found) =
    Raise (PteroAPIError
             (PStr "NotFound")
             (PDict [("errors", PList [PDict [("code", PStr "NotFound")]])])).
Proof.
  split; [apply demo_store_params|]. split; [apply demo_run_received|].
  assert (status demo_not_found <> 204) as H204 by (vm_compute; discriminate).
  assert (status demo_not_found <> 200) as H200 by (vm_compute; discriminate).
  assert (status demo_not_found <> 201) as H201 by (vm_compute; discriminate).
  split; [exact H204|]. split; [exact H200|]. split; [exact H201|].
  refine (proj1 (proj1 (make_error_classification demo_unicode_lower demo_repr demo_dumps
           EventManager_emit_event (demo_env demo_not_found) "/users" "GET"
           0%nat demo_store demo_params demo_not_found demo_store_params
           (demo_run_received _ _) H204 H200 H201) _ _ eq_refl) _ eq_refl).
  unfold demo_not_found. simpl. lia.
Defined.

(** The claim C2 as stated fails on a 4xx response whose body is not JSON:
    the decoder's exception reaches the caller, not a [RequestError]. *)
Lemma make_4xx_undecodable_counterexample :
  demo_html_404 ∈
    received (trace (demo_run EventManager_emit_event "GET" demo_html_404)) /\
  status demo_html_404 = 404 /\
  json demo_html_404 = Raise (DecodeError "unexpected mimetype: text/html") /\
  outcome (demo_run EventManager_emit_event "GET" demo_html_404) =
    Raise (DecodeError "unexpected mimetype: text/html") /\
  ~ (exists msg,
       outcome (demo_run EventManager_emit_event "GET" demo_html_404) =
       Raise (RequestError msg)).
Proof.
  split; [apply demo_run_received|]. split; [reflexivity|].
  split; [reflexivity|].
  assert (outcome (demo_run EventManager_emit_event "GET" demo_html_404) =
          Raise (DecodeError "unexpected mimetype: text/html")) as Hout
    by (vm_compute; reflexivity).
  split; [exact Hout|]. intros [msg Hmsg]. rewrite Hout in Hmsg. discriminate.
Qed.

Lemma make_body_selection_witness :
  heap demo_store !! 0%nat = Some demo_params /\
  demo_request ∈ sent (trace (demo_run EventManager_emit_event "GET" demo_ok)) /\
  data demo_request =
    if truthy (dict_get demo_params "raw") then dict_get demo_params "raw"
    else match strip_query_keys demo_params with
         | [] => PNone
         | rest => PStr (demo_dumps rest)
         end.
Proof.
  assert (demo_request ∈
            sent (trace (demo_run EventManager_emit_event "GET" demo_ok))) as Hin.
  { replace (sent (trace (demo_run EventManager_emit_event "GET" demo_ok)))
      with [demo_request] by (vm_compute; reflexivity).
    apply list_elem_of_here. }
  split; [apply demo_store_params|]. split; [exact Hin|].
  exact (make_body_selection demo_unicode_lower demo_repr demo_dumps EventManager_emit_event
           (demo_env demo_ok) "/users" "GET" 0%nat demo_store demo_params
           demo_request demo_store_params Hin).
Defined.

Lemma make_invalid_method_witness :
  ("HEAD" ∉ http_methods) /\
  demo_run EventManager_emit_event "HEAD" demo_ok =
    (Raise (ValueError "invalid http method 'HEAD'"), demo_store, []).
Proof.
  assert ("HEAD" ∉ http_methods) as Hm.
  { unfold http_methods. rewrite !not_elem_of_cons.
    repeat split; try discriminate. apply not_elem_of_nil. }
  split; [exact Hm|].
  exact (make_invalid_method demo_unicode_lower demo_repr demo_dumps EventManager_emit_event
           (demo_env demo_ok) "/users" "HEAD" 0%nat demo_store Hm).
Defined.

Lemma subscriber_failures_contained_witness :
  heap demo_store !! 0%nat = Some demo_params /\
  demo_ok ∈ received (trace (demo_run failfast_emit_event "GET" demo_ok)) /\
  ((status demo_ok = 200 \/ status demo_ok = 201) /\
   json demo_ok = Ok demo_payload) /\
  outcome (demo_run failfast_emit_event "GET" demo_ok) = Ok demo_payload /\
  default [] (_slots (self demo_store) !! "receive") !! 0%nat = Some demo_failing /\
  default [] (_slots (self demo_store) !! "receive") !! 1%nat = Some demo_quiet /\
  Invoke "receive" 1 demo_payload ∈
    trace (demo_run EventManager_emit_event "GET" demo_ok).
Proof.
  pose proof (subscriber_failures_contained demo_unicode_lower demo_repr demo_dumps
                failfast_emit_event (demo_env demo_ok) "/users" "GET" 0%nat
                demo_store demo_params demo_ok demo_payload demo_store_params
                (demo_run_received _ _)
                (or_intror (conj (or_introl eq_refl) eq_refl)))
    as [Hout Hall].
  assert (default [] (_slots (self demo_store) !! "receive") !! 1%nat
          = Some demo_quiet) as H1 by (vm_compute; reflexivity).
  split; [apply demo_store_params|]. split; [apply demo_run_received|].
  split; [split; [left|]; reflexivity|]. split; [exact Hout|].
  split; [vm_compute; reflexivity|]. split; [exact H1|].
  apply (Hall ltac:(vm_compute; discriminate) 1%nat demo_quiet H1).
Defined.



Lemma make_leaves_params_witness :
  heap demo_store !! 0%nat = Some demo_params /\
  heap (final (demo_run EventManager_emit_event "GET" demo_ok)) !! 0%nat
    = Some demo_params /\
  (forall r x,
     heap demo_store !! r = Some x ->
     heap (final (demo_run EventManager_emit_event "GET" demo_ok)) !! r = Some x).
Proof.
  split; [apply demo_store_params|].
  exact (make_leaves_params demo_unicode_lower demo_repr demo_dumps EventManager_emit_event
           (demo_env demo_ok) "/users" "GET" 0%nat demo_store demo_params
           demo_store_params).
Defined.

(** ** The straight-line form of [_make], proved *)

Section Exact.
Variable unicode_lower : string -> string.
Variable repr : pyval -> string.
Variable dumps : dict -> string.
Variable emit_event : slots -> string -> pyval -> result unit * list nat.
Variable outside : env.

Lemma select_body_exact (params : loc) (s : store) (d : dict) :
  heap s !! params = Some d ->
  select_body dumps emit_event params s =
  (Ok (spec_body dumps d), body_store s d, body_trace emit_event (self s) d).
Proof.
  intros Hd. unfold select_body, spec_body, body_store, body_trace.
  unfold bind at 1. unfold deref at 1. rewrite Hd.
  change (default [] (Some d)) with d.
  destruct (truthy (dict_get d "raw")) eqn:Hraw.
  - unfold bind. rewrite debug_run. unfold ret, debug_trace.
    by rewrite app_nil_r.
  - set (copy := fresh (dom (heap s))).
    assert (heap s !! copy = None) as Hfresh.
    { apply not_elem_of_dom, is_fresh. }
    assert (alter (dict_pop "sort")  copy
              (alter (dict_pop "include") copy
                 (alter (dict_pop "filter") copy
                    (alter (dict_pop "per_page") copy
                       (alter (dict_pop "page") copy
                          (<[copy := d]> (heap s))))))
            = <[copy := strip_query_keys d]> (heap s)) as Hheap.
    { rewrite !alter_insert_eq. by rewrite strip_query_keys_pops. }
    unfold dict_copy, dict_new, deref, pop, bind, ret, query_keys.
    cbn -[__debug truthy dict_get fresh dom strip_query_keys].
    rewrite Hd. cbn -[__debug truthy dict_get fresh dom strip_query_keys].
    fold copy. rewrite Hheap, lookup_insert_eq.
    cbn -[__debug truthy dict_get fresh dom strip_query_keys].
    destruct (strip_query_keys d) as [|kv rest] eqn:Hrest;
      cbn -[__debug truthy dict_get fresh dom strip_query_keys]; [done|].
    rewrite debug_run. cbn -[emit_trace]. unfold debug_trace.
    by rewrite app_nil_r.
Qed.

Lemma body_store_self (s : store) (d : dict) : self (body_store s d) = self s.
Proof. unfold body_store. by destruct (truthy (dict_get d "raw")). Qed.

Lemma body_store_lookup (s : store) (d : dict) (r : loc) (x : dict) :
  heap s !! r = Some x -> heap (body_store s d) !! r = Some x.
Proof.
  intros Hr. unfold body_store. destruct (truthy (dict_get d "raw")); [done|].
  cbn [heap]. rewrite lookup_insert_ne; [done|].
  intros Heq. pose proof (is_fresh (dom (heap s))) as Hfresh.
  apply not_elem_of_dom in Hfresh. congruence.
Qed.

(** Every call with a supported method is its straight-line form. *)
Lemma make_exact (path method : string) (params : loc) (s : store) (d : dict) :
  heap s !! params = Some d ->
  method ∈ http_methods ->
  _make unicode_lower repr dumps emit_event outside path method params s =
  make_summary unicode_lower repr dumps emit_event outside path method s d.
Proof.
  intros Hd Hm.
  destruct (_make unicode_lower repr dumps emit_event outside path method params s)
    as [[r s'] t] eqn:Hrun.
  symmetry. unfold _make in Hrun.
  rewrite (bool_decide_eq_true_2 _ Hm) in Hrun. cbv [negb] in Hrun.
  unfold bind at 1 in Hrun.
  rewrite (select_body_exact params s d Hd) in Hrun.
  pose proof (body_store_lookup s d _ _ Hd) as Hd'.
  pose proof (body_store_self s d) as Hself.
  unfold make_summary.
  set (s0 := body_store s d) in *.
  set (t0 := body_trace emit_event (self s) d) in *.
  unfold bind at 1, deref at 1 in Hrun. rewrite Hd' in Hrun.
  change (default [] (Some d)) with d in Hrun.
  unfold bind at 1, lift at 1 in Hrun.
  destruct (_validate_query repr d) as [query|e] eqn:Hvq.
  2:{ simplify_eq. by rewrite app_nil_r. }
  unfold bind at 1, get_self at 1 in Hrun. rewrite Hself in Hrun.
  unfold bind at 1, lift at 1 in Hrun.
  destruct (_type (self s)) as [ty|] eqn:Hty.
  2:{ simplify_eq. by rewrite !app_nil_r. }
  unfold bind at 1 in Hrun. rewrite debug_run, Hself in Hrun.
  unfold with_session in Hrun.
  unfold bind at 1 in Hrun. rewrite debug_run, Hself in Hrun.
  unfold bind at 1, lift at 1, get_headers in Hrun. rewrite Hty in Hrun.
  fold (debug_trace emit_event (self s) "attempting to start session") in Hrun.
  destruct (auth (self s)) as [a|] eqn:Hau.
  2:{ repeat (progress (cbn [app] in Hrun; rewrite <- ?app_assoc in Hrun)).
      simplify_eq. unfold debug_trace, request_url.
      repeat (progress (cbn [app]; rewrite <- ?app_assoc)).
      by rewrite ?app_nil_r. }
  unfold bind at 1, tell at 1 in Hrun.
  unfold bind at 1, lift at 1 in Hrun.
  destruct (exchange outside) as [resp|e] eqn:Hex.
  2:{ repeat (progress (cbn [app] in Hrun; rewrite <- ?app_assoc in Hrun)).
      simplify_eq. unfold debug_trace, request_url, request_headers.
      by repeat (progress (cbn [app]; rewrite <- ?app_assoc)). }
  unfold bind at 1, tell at 1 in Hrun.
  unfold bind at 1, set_ping at 1 in Hrun. rewrite Hself in Hrun.
  unfold bind at 1 in Hrun. rewrite debug_run in Hrun.
  cbn [self with_ping _slots] in Hrun.
  unfold bind at 1, tell at 1 in Hrun.
  unfold bind at 1 in Hrun. rewrite debug_run in Hrun.
  cbn [self with_ping _slots] in Hrun.
  set (s1 := Store _ (heap s0)) in *.
  pose proof (classify_final emit_event resp s1) as Hfin.
  destruct (classify emit_event resp s1) as [[r1 s2] tc] eqn:Hcl.
  unfold final in Hfin. simpl in Hfin. subst s2.
  repeat (progress (cbn [app] in Hrun; rewrite <- ?app_assoc in Hrun)).
  simplify_eq.
  unfold debug_trace, request_url, request_headers, outcome, trace.
  cbn [fst snd with_ping _slots].
  by repeat (progress (cbn [app]; rewrite <- ?app_assoc)).
Qed.
End Exact.

(** ** Reading the traces of the straight-line form *)

Lemma debug_messages_app (t1 t2 : list io) :
  debug_messages (t1 ++ t2) = debug_messages t1 ++ debug_messages t2.
Proof.
  induction t1 as [|ev t1 IH]; [done|].
  destruct ev; simpl; try destruct (String.eqb _ _); simpl; by rewrite IH.
Qed.

Lemma session_events_app (t1 t2 : list io) :
  session_events (t1 ++ t2) = session_events t1 ++ session_events t2.
Proof. apply List.filter_app. Qed.

Lemma session_events_cons (ev : io) (t : list io) :
  session_events (ev :: t) =
  if is_session ev then ev :: session_events t else session_events t.
Proof. reflexivity. Qed.

Lemma session_events_nil : session_events [] = [].
Proof. reflexivity. Qed.

Section TraceFacts.
Variable emit_event : slots -> string -> pyval -> result unit * list nat.

Lemma emit_trace_sent (registry : slots) (name : string) (payload : pyval) :
  sent (emit_trace emit_event registry name payload) = [].
Proof. apply emit_trace_no_exchange. Qed.

Lemma emit_trace_received (registry : slots) (name : string) (payload : pyval) :
  received (emit_trace emit_event registry name payload) = [].
Proof. apply emit_trace_no_exchange. Qed.

Lemma emit_trace_session (registry : slots) (name : string) (payload : pyval) :
  session_events (emit_trace emit_event registry name payload) = [].
Proof.
  unfold emit_trace, session_events. simpl.
  induction (snd (emit_event registry name payload)) as [|i l IH]; done.
Qed.

Lemma emit_trace_debug_messages (registry : slots) (name : string)
    (payload : pyval) :
  debug_messages (emit_trace emit_event registry name payload) =
  if String.eqb name "debug" then [payload] else [].
Proof.
  unfold emit_trace. simpl.
  assert (debug_messages
            (List.map (fun i => Invoke name i payload)
                      (snd (emit_event registry name payload))) = []) as ->.
  { induction (snd (emit_event registry name payload)) as [|i l IH]; done. }
  by destruct (String.eqb name "debug").
Qed.

Lemma emit_trace_receive_events (registry : slots) (name : string)
    (payload : pyval) :
  receive_events (emit_trace emit_event registry name payload) =
  if String.eqb name "receive" then [payload] else [].
Proof.
  unfold emit_trace. simpl.
  assert (receive_events
            (List.map (fun i => Invoke name i payload)
                      (snd (emit_event registry name payload))) = []) as ->.
  { induction (snd (emit_event registry name payload)) as [|i l IH]; done. }
  by destruct (String.eqb name "receive").
Qed.

Lemma debug_trace_sent (m : RequestManager) (msg : string) :
  sent (debug_trace emit_event m msg) = [].
Proof. apply emit_trace_sent. Qed.

Lemma debug_trace_received (m : RequestManager) (msg : string) :
  received (debug_trace emit_event m msg) = [].
Proof. apply emit_trace_received. Qed.

Lemma debug_trace_session (m : RequestManager) (msg : string) :
  session_events (debug_trace emit_event m msg) = [].
Proof. apply emit_trace_session. Qed.

Lemma debug_trace_receive_events (m : RequestManager) (msg : string) :
  receive_events (debug_trace emit_event m msg) = [].
Proof. unfold debug_trace. by rewrite emit_trace_receive_events. Qed.

Lemma debug_trace_messages (m : RequestManager) (msg : string) :
  debug_messages (debug_trace emit_event m msg) = [PStr ("[debug] " +:+ msg)].
Proof. unfold debug_trace. by rewrite emit_trace_debug_messages. Qed.

Lemma body_trace_sent (m : RequestManager) (d : dict) :
  sent (body_trace emit_event m d) = [].
Proof.
  unfold body_trace. repeat case_match; try done; apply debug_trace_sent.
Qed.

Lemma body_trace_received (m : RequestManager) (d : dict) :
  received (body_trace emit_event m d) = [].
Proof.
  unfold body_trace. repeat case_match; try done; apply debug_trace_received.
Qed.

Lemma body_trace_session (m : RequestManager) (d : dict) :
  session_events (body_trace emit_event m d) = [].
Proof.
  unfold body_trace. repeat case_match; try done; apply debug_trace_session.
Qed.

Lemma body_trace_receive_events (m : RequestManager) (d : dict) :
  receive_events (body_trace emit_event m d) = [].
Proof.
  unfold body_trace.
  repeat case_match; try done; apply debug_trace_receive_events.
Qed.

(** What classification adds to the trace: the receive emission of a 200 or
    201 response whose body decodes, and nothing else. *)
Lemma classify_trace (resp : http_response) (s : store) :
  trace (classify emit_event resp s) =
  if (status resp =? 204) then []
  else if (status resp =? 200) || (status resp =? 201) then
    match json resp with
    | Ok data => emit_trace emit_event (_slots (self s)) "receive" data
    | Raise _ => []
    end
  else [].
Proof.
  unfold classify, trace.
  destruct (status resp =? 204); [done|].
  destruct ((status resp =? 200) || (status resp =? 201)).
  { unfold bind, lift, try_pass, super_emit_event, ret.
    destruct (json resp); [|done]. cbn [snd]. by rewrite !app_nil_r. }
  destruct ((400 <=? status resp) && (status resp <? 500)); [|done].
  unfold bind, lift, raise.
  destruct (json resp) as [err|]; [|done].
  by destruct (error_code err).
Qed.

Lemma classify_session (resp : http_response) (s : store) :
  session_events (trace (classify emit_event resp s)) = [].
Proof.
  rewrite classify_trace. repeat case_match; try done. apply emit_trace_session.
Qed.

Lemma classify_debug_messages (resp : http_response) (s : store) :
  debug_messages (trace (classify emit_event resp s)) = [].
Proof.
  rewrite classify_trace. repeat case_match; try done.
  by rewrite emit_trace_debug_messages.
Qed.

Lemma classify_sent (resp : http_response) (s : store) :
  sent (trace (classify emit_event resp s)) = [].
Proof. apply classify_no_exchange. Qed.

Lemma classify_received (resp : http_response) (s : store) :
  received (trace (classify emit_event resp s)) = [].
Proof. apply classify_no_exchange. Qed.
End TraceFacts.

Lemma trace_triple {A : Type} (r : result A) (s : store) (t : list io) :
  trace (r, s, t) = t.
Proof. reflexivity. Qed.

Lemma outcome_triple {A : Type} (r : result A) (s : store) (t : list io) :
  outcome (r, s, t) = r.
Proof. reflexivity. Qed.

Lemma final_triple {A : Type} (r : result A) (s : store) (t : list io) :
  final (r, s, t) = s.
Proof. reflexivity. Qed.

Create Rewrite HintDb traces.

#[local] Hint Rewrite sent_app received_app receive_events_app
  debug_messages_app session_events_app session_events_cons session_events_nil
  debug_trace_sent debug_trace_received debug_trace_session
  debug_trace_receive_events debug_trace_messages
  body_trace_sent body_trace_received body_trace_session
  body_trace_receive_events
  classify_sent classify_received classify_session classify_debug_messages
  : traces.

Ltac read_trace :=
  repeat (progress
            (autorewrite with traces;
             cbn [sent received receive_events debug_messages is_session app]));
  rewrite ?app_nil_r.

(** ** The ways out of [_make] *)

Section WaysOut.
Variable unicode_lower : string -> string.
Variable repr : pyval -> string.
Variable dumps : dict -> string.
Variable emit_event : slots -> string -> pyval -> result unit * list nat.
Variable outside : env.

(** X1: a query that does not validate stops the call before any network
    I/O: the exception of [_validate_query] is raised, no session is entered,
    nothing is sent and the manager is as it was. *)
Theorem make_validation_error_before_io (path method : string) (params : loc)
    (s : store) (d : dict) (e : exn) :
  heap s !! params = Some d ->
  method ∈ http_methods ->
  _validate_query repr d = Raise e ->
  outcome (_make unicode_lower repr dumps emit_event outside path method params s) = Raise e /\
  self (final (_make unicode_lower repr dumps emit_event outside path method params s))
    = self s /\
  sent (trace (_make unicode_lower repr dumps emit_event outside path method params s)) = [] /\
  session_events
    (trace (_make unicode_lower repr dumps emit_event outside path method params s)) = [].
Proof.
  intros Hd Hm Hvq. rewrite (make_exact _ _ _ _ _ _ _ _ _ _ Hd Hm).
  unfold make_summary. rewrite Hvq. rewrite outcome_triple, final_triple, trace_triple.
  rewrite body_store_self. by read_trace.
Qed.

(** X2: without an API type the call fails on [self._type.lower()] with
    [AttributeError], before a session is entered; the [TypeError] that
    [get_headers] keeps for this case is never reached through [_make]. *)
Theorem make_missing_type (path method : string) (params : loc) (s : store)
    (d : dict) (query : string) :
  heap s !! params = Some d ->
  method ∈ http_methods ->
  _validate_query repr d = Ok query ->
  _type (self s) = None ->
  outcome (_make unicode_lower repr dumps emit_event outside path method params s) =
    Raise (AttributeError "'NoneType' object has no attribute 'lower'") /\
  sent (trace (_make unicode_lower repr dumps emit_event outside path method params s)) = [] /\
  session_events
    (trace (_make unicode_lower repr dumps emit_event outside path method params s)) = [].
Proof.
  intros Hd Hm Hvq Hty. rewrite (make_exact _ _ _ _ _ _ _ _ _ _ Hd Hm).
  unfold make_summary. rewrite Hvq, Hty.
  rewrite outcome_triple, trace_triple. by read_trace.
Qed.

(** X3: without a credential the call fails with the [TypeError] of
    [get_headers] only after the session was entered; the session is left
    again, no request is sent and the manager is as it was. *)
Theorem make_missing_credential (path method : string) (params : loc)
    (s : store) (d : dict) (query ty : string) :
  heap s !! params = Some d ->
  method ∈ http_methods ->
  _validate_query repr d = Ok query ->
  _type (self s) = Some ty ->
  auth (self s) = None ->
  outcome (_make unicode_lower repr dumps emit_event outside path method params s) =
    Raise (TypeError "missing authorization for requests") /\
  self (final (_make unicode_lower repr dumps emit_event outside path method params s))
    = self s /\
  sent (trace (_make unicode_lower repr dumps emit_event outside path method params s)) = [] /\
  session_events
    (trace (_make unicode_lower repr dumps emit_event outside path method params s))
    = [SessionEnter; SessionExit].
Proof.
  intros Hd Hm Hvq Hty Hau. rewrite (make_exact _ _ _ _ _ _ _ _ _ _ Hd Hm).
  unfold make_summary. rewrite Hvq, Hty, Hau.
  rewrite outcome_triple, final_triple, trace_triple.
  rewrite body_store_self. by read_trace.
Qed.

(** X4: when the transport fails, its exception reaches the caller; exactly
    one request was sent, no response and no receive event is recorded, the
    session is left without the explicit close, and ping keeps its value. *)
Theorem make_transport_failure (path method : string) (params : loc)
    (s : store) (d : dict) (e : exn) :
  heap s !! params = Some d ->
  method ∈ http_methods ->
  ready repr (self s) d ->
  exchange outside = Raise e ->
  outcome (_make unicode_lower repr dumps emit_event outside path method params s) = Raise e /\
  self (final (_make unicode_lower repr dumps emit_event outside path method params s))
    = self s /\
  length (sent (trace (_make unicode_lower repr dumps emit_event outside path method params s)))
    = 1%nat /\
  received (trace (_make unicode_lower repr dumps emit_event outside path method params s))
    = [] /\
  receive_events
    (trace (_make unicode_lower repr dumps emit_event outside path method params s)) = [] /\
  session_events
    (trace (_make unicode_lower repr dumps emit_event outside path method params s))
    = [SessionEnter; SessionExit].
Proof.
  intros Hd Hm ([query Hvq] & [ty Hty] & [a Hau]) Hex.
  rewrite (make_exact _ _ _ _ _ _ _ _ _ _ Hd Hm).
  unfold make_summary. rewrite Hvq, Hty, Hau, Hex.
  rewrite outcome_triple, final_triple, trace_triple.
  rewrite body_store_self. by read_trace.
Qed.

(** X5: every request the call sends goes to
    [domain + "/api/" + type.lower() + path + query], where [query] is what
    [_validate_query] returned for [params]; it uses [method.lower()] and
    the four headers of [get_headers], the credential as a bearer token. *)
Theorem make_request_contents (path method : string) (params : loc)
    (s : store) (d : dict) (req : http_request) :
  heap s !! params = Some d ->
  req ∈ sent (trace (_make unicode_lower repr dumps emit_event outside path method params s)) ->
  exists query ty a,
    _validate_query repr d = Ok query /\
    _type (self s) = Some ty /\ auth (self s) = Some a /\
    verb req = str_lower unicode_lower method /\
    url req = domain (self s) +:+ "/api/" +:+ str_lower unicode_lower ty
              +:+ path +:+ query /\
    get_headers (self s) = Ok (headers req) /\
    headers req = [("User-Agent", ty +:+ " Pytero v0.1.0");
                   ("Content-Type", "application/json");
                   ("Accept", "application/json");
                   ("Authorization", "Bearer " +:+ a)].
Proof.
  intros Hd Hin.
  destruct (decide (method ∈ http_methods)) as [Hm|Hm].
  2:{ unfold _make in Hin. rewrite (bool_decide_eq_false_2 _ Hm) in Hin.
      by apply elem_of_nil in Hin. }
  rewrite (make_exact _ _ _ _ _ _ _ _ _ _ Hd Hm) in Hin.
  unfold make_summary in Hin.
  destruct (_validate_query repr d) as [query|] eqn:Hvq;
    destruct (_type (self s)) as [ty|] eqn:Hty;
    destruct (auth (self s)) as [a|] eqn:Hau;
    destruct (exchange outside) as [resp|] eqn:Hex;
    rewrite trace_triple in Hin; revert Hin; read_trace; intros Hin;
    try (by apply elem_of_nil in Hin).
  all: apply list_elem_of_singleton in Hin as ->.
  all: exists query, ty, a; cbn [verb url headers].
  all: unfold get_headers, request_url, request_headers; rewrite Hty, Hau; done.
Qed.
End WaysOut.

(** ** What holds of every call *)

Section EveryCall.
Variable unicode_lower : string -> string.
Variable repr : pyval -> string.
Variable dumps : dict -> string.
Variable emit_event : slots -> string -> pyval -> result unit * list nat.
Variable outside : env.

(** X6: a call sends at most one request and records a response only for a
    request it sent; a session that is entered is always left, on raising
    paths too, and the explicit close happens only between the two, once a
    response has arrived. *)
Theorem make_one_exchange (path method : string) (params : loc) (s : store)
    (d : dict) :
  heap s !! params = Some d ->
  (length (received
             (trace (_make unicode_lower repr dumps emit_event outside path method params s)))
   <= length (sent
                (trace (_make unicode_lower repr dumps emit_event outside path method params s)))
   <= 1)%nat /\
  (session_events
     (trace (_make unicode_lower repr dumps emit_event outside path method params s)) = [] \/
   session_events
     (trace (_make unicode_lower repr dumps emit_event outside path method params s))
     = [SessionEnter; SessionExit] /\
   received (trace (_make unicode_lower repr dumps emit_event outside path method params s))
     = [] \/
   session_events
     (trace (_make unicode_lower repr dumps emit_event outside path method params s))
     = [SessionEnter; SessionClose; SessionExit] /\
   length (received
             (trace (_make unicode_lower repr dumps emit_event outside path method params s)))
     = 1%nat).
Proof.
  intros Hd.
  destruct (decide (method ∈ http_methods)) as [Hm|Hm].
  2:{ unfold _make. rewrite (bool_decide_eq_false_2 _ Hm). simpl. auto. }
  rewrite (make_exact _ _ _ _ _ _ _ _ _ _ Hd Hm). unfold make_summary.
  destruct (_validate_query repr d) as [query|];
    destruct (_type (self s)) as [ty|];
    destruct (auth (self s)) as [a|];
    destruct (exchange outside) as [resp|];
    rewrite trace_triple; read_trace; simpl; auto.
Qed.

(** X7: a call never changes the manager's API type, domain, credential,
    suspended flag or subscribers: the manager it leaves is the one it found
    with, at most, another ping; and unless the headers of a response
    arrived, ping keeps its value as well. *)
Theorem make_keeps_identity (path method : string) (params : loc) (s : store)
    (d : dict) :
  heap s !! params = Some d ->
  self (final (_make unicode_lower repr dumps emit_event outside path method params s)) =
    with_ping (self s)
      (ping (self (final (_make unicode_lower repr dumps emit_event outside path method
                                params s)))) /\
  (received (trace (_make unicode_lower repr dumps emit_event outside path method params s))
     = [] ->
   self (final (_make unicode_lower repr dumps emit_event outside path method params s))
     = self s).
Proof.
  intros Hd.
  assert (forall m, m = with_ping m (ping m)) as Heta by (by intros []).
  destruct (decide (method ∈ http_methods)) as [Hm|Hm].
  2:{ unfold _make. rewrite (bool_decide_eq_false_2 _ Hm). simpl. auto. }
  rewrite (make_exact _ _ _ _ _ _ _ _ _ _ Hd Hm). unfold make_summary.
  destruct (_validate_query repr d) as [query|];
    destruct (_type (self s)) as [ty|] eqn:Hty;
    destruct (auth (self s)) as [a|] eqn:Hau;
    destruct (exchange outside) as [resp|];
    rewrite final_triple, trace_triple, ?body_store_self; cbn zeta;
    cbn [self]; (split; [by auto|]); try done.
  read_trace. intros; discriminate.
Qed.

(** X8: whether the event manager returns or raises during a debug or a
    receive emission makes no difference to a call: two event managers that
    invoke the same subscribers give the same run, that is the same value or
    exception, the same store and the same trace.  (Subscribers are modelled
    by their returning or raising.) *)
Theorem make_ignores_emit_exceptions
    (emit2 : slots -> string -> pyval -> result unit * list nat)
    (path method : string) (params : loc) (s : store) (d : dict) :
  heap s !! params = Some d ->
  (forall registry name payload,
     snd (emit_event registry name payload) = snd (emit2 registry name payload)) ->
  _make unicode_lower repr dumps emit_event outside path method params s =
  _make unicode_lower repr dumps emit2 outside path method params s.
Proof.
  intros Hd Hsame.
  assert (forall registry name payload,
            emit_trace emit_event registry name payload =
            emit_trace emit2 registry name payload) as Htrace.
  { intros. unfold emit_trace. by rewrite Hsame. }
  assert (forall resp s1, classify emit_event resp s1 = classify emit2 resp s1)
    as Hclassify.
  { intros resp s1. unfold classify.
    destruct (status resp =? 204); [done|].
    destruct ((status resp =? 200) || (status resp =? 201)); [|done].
    unfold bind, lift, try_pass, super_emit_event, ret.
    destruct (json resp); [|done]. by rewrite Htrace. }
  destruct (decide (method ∈ http_methods)) as [Hm|Hm].
  2:{ unfold _make. by rewrite (bool_decide_eq_false_2 _ Hm). }
  rewrite !(make_exact _ _ _ _ _ _ _ _ _ _ Hd Hm).
  unfold make_summary, body_trace, debug_trace.
  destruct (_validate_query repr d) as [query|];
    destruct (_type (self s)) as [ty|];
    destruct (auth (self s)) as [a|];
    destruct (exchange outside) as [resp|];
    cbn zeta; by rewrite ?Htrace, ?Hclassify.
Qed.

(** X9: the debug messages of a call that completes its exchange, in order:
    the note on the payload, if there is one, then the session start, the
    URL requested, the session close and the status received. *)
Theorem make_debug_log (path method : string) (params : loc) (s : store)
    (d : dict) (query ty a : string) (resp : http_response) :
  heap s !! params = Some d ->
  method ∈ http_methods ->
  _validate_query repr d = Ok query ->
  _type (self s) = Some ty ->
  auth (self s) = Some a ->
  exchange outside = Ok resp ->
  debug_messages
    (trace (_make unicode_lower repr dumps emit_event outside path method params s)) =
  (if truthy (dict_get d "raw") then [PStr "[debug] sending raw byte payload"]
   else match strip_query_keys d with
        | [] => []
        | _ => [PStr "[debug] sending json payload"]
        end) ++
  [PStr "[debug] attempting to start session";
   PStr ("[debug] attemping to perform request to " +:+
         domain (self s) +:+ "/api/" +:+ str_lower unicode_lower ty +:+ path
         +:+ query);
   PStr "[debug] ensuring session close before continuing";
   PStr ("[debug] received status: " +:+ pretty (status resp))].
Proof.
  intros Hd Hm Hvq Hty Hau Hex. rewrite (make_exact _ _ _ _ _ _ _ _ _ _ Hd Hm).
  unfold make_summary. rewrite Hvq, Hty, Hau, Hex. rewrite trace_triple.
  read_trace. rewrite <- ?app_assoc. cbn [app]. unfold request_url.
  assert (debug_messages (body_trace emit_event (self s) d) =
          if truthy (dict_get d "raw")
          then [PStr "[debug] sending raw byte payload"]
          else match strip_query_keys d with
               | [] => []
               | _ => [PStr "[debug] sending json payload"]
               end) as ->; [|reflexivity].
  unfold body_trace.
  destruct (truthy (dict_get d "raw")); [by rewrite debug_trace_messages|].
  destruct (strip_query_keys d); [done|]. by rewrite debug_trace_messages.
Qed.

(** X10: on a 200 or 201 response whose body decodes, the receive event is
    emitted after the explicit session close and before the session is
    left; nothing in the trace before the close is a receive event. *)
Theorem make_receive_after_close (path method : string) (params : loc)
    (s : store) (d : dict) (resp : http_response) (data : pyval) :
  heap s !! params = Some d ->
  method ∈ http_methods ->
  ready repr (self s) d ->
  exchange outside = Ok resp ->
  status resp = 200 \/ status resp = 201 ->
  json resp = Ok data ->
  exists pre mid post,
    trace (_make unicode_lower repr dumps emit_event outside path method params s) =
      pre ++ SessionClose :: mid ++ Emit "receive" data :: post ++ [SessionExit] /\
    receive_events pre = [] /\ receive_events mid = [] /\
    session_events mid = [] /\ session_events post = [].
Proof.
  intros Hd Hm ([query Hvq] & [ty Hty] & [a Hau]) Hex Hst Hjson.
  rewrite (make_exact _ _ _ _ _ _ _ _ _ _ Hd Hm).
  unfold make_summary. rewrite Hvq, Hty, Hau, Hex. rewrite trace_triple.
  rewrite (classify_data _ _ _ data) by done. rewrite trace_triple.
  unfold emit_trace.
  match goal with
  | |- context [?pre0 ++ RequestSent ?q :: ResponseHeaders _
                  :: ?c ++ SessionClose :: ?dd ++ (Emit _ _ :: ?inv) ++ _] =>
      exists (pre0 ++ RequestSent q :: ResponseHeaders resp :: c), dd, inv
  end.
  split.
  { repeat (progress (cbn [app]; rewrite <- ?app_assoc)). reflexivity. }
  split; [by read_trace|]. split; [by read_trace|]. split; [by read_trace|].
  match goal with |- session_events (List.map _ ?l) = [] => generalize l end.
  intros l. induction l as [|i l IH]; done.
Qed.
End EveryCall.

(** ** The verb methods *)

Section Verbs.
Variable unicode_lower : string -> string.
Variable repr : pyval -> string.
Variable dumps : dict -> string.
Variable emit_event : slots -> string -> pyval -> result unit * list nat.
Variable outside : env.

Lemma make_sent_verb (path method : string) (params : loc) (s : store)
    (d : dict) (req : http_request) :
  heap s !! params = Some d ->
  method ∈ http_methods ->
  req ∈ sent (trace (_make unicode_lower repr dumps emit_event outside path method params s)) ->
  verb req = str_lower unicode_lower method /\ data req = spec_body dumps d /\
  exists query ty,
    _validate_query repr d = Ok query /\ _type (self s) = Some ty /\
    url req = request_url unicode_lower (self s) ty path query.
Proof.
  intros Hd Hm Hin.
  rewrite (make_exact _ _ _ _ _ _ _ _ _ _ Hd Hm) in Hin.
  unfold make_summary in Hin.
  destruct (_validate_query repr d) as [query|] eqn:Hvq;
    destruct (_type (self s)) as [ty|] eqn:Hty;
    destruct (auth (self s)) as [a|] eqn:Hau;
    destruct (exchange outside) as [resp|] eqn:Hex;
    rewrite trace_triple in Hin; revert Hin; read_trace; intros Hin;
    try (by apply elem_of_nil in Hin).
  all: apply list_elem_of_singleton in Hin as ->; cbn [verb data url]; eauto 10.
Qed.

Lemma make_final_lookup (path method : string) (params : loc) (s : store)
    (d : dict) (r : loc) (x : dict) :
  heap s !! params = Some d ->
  heap s !! r = Some x ->
  heap (final (_make unicode_lower repr dumps emit_event outside path method params s)) !! r
    = Some x.
Proof.
  intros Hd Hr.
  destruct (decide (method ∈ http_methods)) as [Hm|Hm].
  2:{ unfold _make. by rewrite (bool_decide_eq_false_2 _ Hm). }
  rewrite (make_exact _ _ _ _ _ _ _ _ _ _ Hd Hm). unfold make_summary.
  destruct (_validate_query repr d) as [query|];
    destruct (_type (self s)) as [ty|];
    destruct (auth (self s)) as [a|];
    destruct (exchange outside) as [resp|];
    rewrite final_triple; cbn [heap]; by apply body_store_lookup.
Qed.

(** A call ready for the request sends exactly one, with the lower-cased
    method and the selected body. *)
Lemma make_sends_one (path method : string) (params : loc) (s : store)
    (d : dict) :
  heap s !! params = Some d ->
  method ∈ http_methods ->
  ready repr (self s) d ->
  exists req,
    sent (trace (_make unicode_lower repr dumps emit_event outside
                       path method params s)) = [req] /\
    verb req = str_lower unicode_lower method /\
    data req = spec_body dumps d.
Proof.
  intros Hd Hm ([query Hvq] & [ty Hty] & [a Hau]).
  rewrite (make_exact _ _ _ _ _ _ _ _ _ _ Hd Hm). unfold make_summary.
  rewrite Hvq, Hty, Hau.
  destruct (exchange outside) as [resp|]; rewrite trace_triple; read_trace;
    eexists; split; try reflexivity; done.
Qed.

(** Passing keyword arguments on to [_make]: with no clash, the call is
    [_make] on a new dictionary with the contents of the caller's. *)
Lemma call_make_run (path method : string) (data : loc) (s : store) (d : dict) :
  heap s !! data = Some d ->
  clashes d = false ->
  call_make unicode_lower repr dumps emit_event outside path method data s =
  _make unicode_lower repr dumps emit_event outside path method
        (fresh (dom (heap s)))
        (Store (self s) (<[fresh (dom (heap s)) := d]> (heap s))).
Proof.
  intros Hd Hclash. unfold call_make, bind at 1, deref at 1.
  rewrite Hd. cbn [default from_option id]. rewrite Hclash.
  unfold bind at 1, dict_copy, bind, deref, dict_new.
  rewrite Hd. cbn [default from_option id app].
  by destruct (_make _ _ _ _ _ _ _ _ _) as [[? ?] ?].
Qed.

(** X11: called with keyword arguments that do not clash with [_make]'s
    parameters, on a manager ready for the request, [rget], [rpost],
    [rpatch] and [rput] send exactly one request, with the session method of
    their own name and the body selected from the caller's keyword
    arguments, and they leave the caller's dictionary as it was. *)
Theorem verb_methods_request (f : string -> loc -> M pyval) (v path : string)
    (kwargs : loc) (s : store) (d : dict) :
  (f, v) ∈ verb_methods unicode_lower repr dumps emit_event outside ->
  heap s !! kwargs = Some d ->
  clashes d = false ->
  ready repr (self s) d ->
  (exists req,
     sent (trace (f path kwargs s)) = [req] /\
     verb req = v /\ data req = spec_body dumps d) /\
  heap (final (f path kwargs s)) !! kwargs = Some d.
Proof.
  intros Hf Hd Hclash Hready. unfold verb_methods in Hf.
  assert (heap s !! fresh (dom (heap s)) = None) as Hfresh
    by apply not_elem_of_dom, is_fresh.
  assert (kwargs ≠ fresh (dom (heap s))) as Hne by congruence.
  repeat (apply elem_of_cons in Hf as [[= -> ->]|Hf]);
    [..|by apply elem_of_nil in Hf].
  all: unfold rget, rpost, rpatch, rput;
    rewrite (call_make_run _ _ _ _ _ Hd Hclash).
  all: split;
    [eapply make_sends_one;
       [cbn [heap]; apply lookup_insert_eq
       |unfold http_methods; set_solver
       |exact Hready]
    |eapply make_final_lookup;
       [cbn [heap]; apply lookup_insert_eq
       |cbn [heap]; by rewrite lookup_insert_ne]].
Qed.

(** X20: a keyword argument named [method] (or [self], or [path]) makes
    [rget], [rpost], [rpatch] and [rput] raise [TypeError] when the
    arguments are bound: nothing of [_make] runs, the store is untouched and
    the trace is empty. *)
Theorem verb_methods_keyword_clash (f : string -> loc -> M pyval)
    (v path : string) (kwargs : loc) (s : store) (d : dict) :
  (f, v) ∈ verb_methods unicode_lower repr dumps emit_event outside ->
  heap s !! kwargs = Some d ->
  clashes d = true ->
  exists msg, f path kwargs s = (Raise (TypeError msg), s, []).
Proof.
  intros Hf Hd Hclash. unfold verb_methods in Hf.
  repeat (apply elem_of_cons in Hf as [[= -> ->]|Hf]);
    [..|by apply elem_of_nil in Hf].
  all: unfold rget, rpost, rpatch, rput, call_make, bind, deref, raise.
  all: rewrite Hd; cbn [default from_option id]; rewrite Hclash; eauto.
Qed.

(** X12: [rdelete] sends a DELETE request without a body and without a
    query string: its URL is [domain + "/api/" + type.lower() + path]. *)
Theorem rdelete_request (path : string) (s : store) (req : http_request) :
  req ∈ sent (trace (rdelete unicode_lower repr dumps emit_event outside path s)) ->
  verb req = "delete" /\ data req = PNone /\
  exists ty, _type (self s) = Some ty /\
             url req = domain (self s) +:+ "/api/"
                       +:+ str_lower unicode_lower ty +:+ path.
Proof.
  intros Hin. unfold rdelete, bind at 1, dict_new in Hin.
  destruct (_make unicode_lower repr dumps emit_event outside path "DELETE"
              (fresh (dom (heap s)))
              (Store (self s) (<[fresh (dom (heap s)) := []]> (heap s))))
    as [[r s'] t] eqn:Hrun.
  cbn [app] in Hin. rewrite trace_triple in Hin.
  assert (req ∈ sent (trace (_make unicode_lower repr dumps emit_event outside path "DELETE"
              (fresh (dom (heap s)))
              (Store (self s) (<[fresh (dom (heap s)) := []]> (heap s))))))
    as Hin' by (by rewrite Hrun).
  eapply make_sent_verb in Hin' as (Hv & Hb & query & ty & Hvq & Hty & Hurl);
    [|cbn [heap]; apply lookup_insert_eq|unfold http_methods; set_solver].
  split; [exact Hv|]. split; [exact Hb|].
  exists ty. split; [exact Hty|].
  assert (query = "") as -> by (by injection Hvq).
  rewrite Hurl. unfold request_url. cbn [self]. by rewrite append_empty_r.
Qed.
End Verbs.

(** ** More on [_validate_query] *)

Section QueryEdges.
Variable repr : pyval -> string.

(** X13: the query string depends only on what the dictionary binds to the
    five option names; body fields and a raw entry beside them change
    nothing. *)
Theorem validate_query_only_query_keys (q q' : dict) :
  (forall k, k ∈ query_keys -> dict_get q k = dict_get q' k) ->
  _validate_query repr q = _validate_query repr q'.
Proof.
  intros H. rewrite !validate_query_clauses. by rewrite (clauses_ext repr q q').
Qed.

(** X14: a query string that is returned is empty or starts with [?], so
    it can be appended to a path as it is. *)
Theorem validate_query_shape (q : dict) (s : string) :
  _validate_query repr q = Ok s ->
  s = "" \/ exists rest, s = "?" +:+ rest.
Proof.
  rewrite validate_query_clauses.
  destruct (clauses repr q) as [res|]; simpl; [|done].
  intros [= <-]. destruct res as [|c res]; [by left|right].
  unfold spec_query_string. eauto.
Qed.

(** X15: a page above 50 is rejected whatever else the dictionary holds:
    the page is checked first, so its error wins over any later one. *)
Theorem validate_query_page_too_large (q : dict) (n : Z) :
  dict_get q "page" = PInt n ->
  50 < n ->
  _validate_query repr q =
  Raise (ValidationError "page number must be between 1 and 50").
Proof.
  intros Hp Hn. unfold _validate_query. rewrite Hp. simpl.
  replace (n =? 0) with false by lia. simpl.
  replace (1 <? n) with true by lia. by replace (n >? 50) with true by lia.
Qed.

(** X16: a per_page above 100 is rejected once the page has passed: with
    the page absent, falsy or an integer up to 50. *)
Theorem validate_query_per_page_too_large (q : dict) (m : Z) :
  truthy (dict_get q "page") = false \/
    (exists n, dict_get q "page" = PInt n /\ n <= 50) ->
  dict_get q "per_page" = PInt m ->
  100 < m ->
  _validate_query repr q =
  Raise (ValidationError "per_page number must be between 1 and 100").
Proof.
  intros Hpage Hp Hm. unfold _validate_query. rewrite Hp.
  assert (truthy (PInt m) = true) as -> by (simpl; lia).
  assert ((1 <? m) && (m >? 100) = true) as Hguard by lia.
  destruct Hpage as [->|(n & -> & Hn)]; simpl.
  - by rewrite Hguard.
  - destruct (n =? 0); simpl; [by rewrite Hguard|].
    replace (n >? 50) with false by lia. rewrite andb_false_r. simpl.
    by rewrite Hguard.
Qed.

(** X17: a page that is a non-empty string, and not a number, raises
    [TypeError] at the comparison, not [ValidationError]. *)
Theorem validate_query_page_string (q : dict) (v : string) :
  dict_get q "page" = PStr v ->
  v <> "" ->
  exists msg, _validate_query repr q = Raise (TypeError msg).
Proof.
  intros Hp Hv. unfold _validate_query. rewrite Hp. simpl.
  apply String.eqb_neq in Hv. rewrite Hv. simpl. eauto.
Qed.

(** X18: a filter has to be a pair: when page and per_page are absent or
    falsy, a truthy filter value that is not a 2-tuple raises [TypeError] in
    the formatting. *)
Theorem validate_query_filter_not_pair (q : dict) :
  truthy (dict_get q "page") = false ->
  truthy (dict_get q "per_page") = false ->
  truthy (dict_get q "filter") = true ->
  (forall a b, dict_get q "filter" <> PTuple [a; b]) ->
  exists msg, _validate_query repr q = Raise (TypeError msg).
Proof.
  intros Hpage Hper Hf Hpair. unfold _validate_query.
  rewrite Hpage, Hper, Hf. simpl. unfold format_s2, format_args.
  destruct (dict_get q "filter") as [| | | |items| |]; simpl; eauto.
  destruct items as [|a [|b [|c items]]]; simpl; eauto.
  by destruct (Hpair a b).
Qed.
End QueryEdges.

(** ** Registration *)

Lemma add_event_slot_lookup (name : string) (func : callback)
    (m : RequestManager) :
  default [] (_slots (add_event_slot name func m) !! name) =
  default [] (_slots m !! name) ++ [func].
Proof. unfold add_event_slot. cbn [_slots]. by rewrite lookup_insert_eq. Qed.

(** X19: with the event manager of specification section 4.1, a callback
    registered through [on_receive] is handed back to the caller and is then
    invoked with the payload of a successful call, in the position after the
    callbacks registered before it, which are invoked as before. *)
Theorem on_receive_then_call (unicode_lower : string -> string)
    (repr : pyval -> string) (dumps : dict -> string)
    (outside : env) (func : callback) (path method : string) (params : loc)
    (s : store) (d : dict) (resp : http_response) (payload : pyval) :
  heap s !! params = Some d ->
  method ∈ http_methods ->
  ready repr (self s) d ->
  exchange outside = Ok resp ->
  status resp = 200 \/ status resp = 201 ->
  json resp = Ok payload ->
  outcome (on_receive func s) = Ok func /\
  Invoke "receive" (length (default [] (_slots (self s) !! "receive"))) payload
    ∈ trace (_make unicode_lower repr dumps EventManager_emit_event outside path method
                   params (final (on_receive func s))) /\
  (forall i cb,
     default [] (_slots (self s) !! "receive") !! i = Some cb ->
     Invoke "receive" i payload
       ∈ trace (_make unicode_lower repr dumps EventManager_emit_event outside path method
                      params (final (on_receive func s)))).
Proof.
  intros Hd Hm Hready Hex Hst Hjson. split; [done|].
  unfold on_receive. rewrite final_triple.
  set (s' := Store (add_event_slot "receive" func (self s)) (heap s)).
  assert (forall i cb,
            default [] (_slots (self s') !! "receive") !! i = Some cb ->
            Invoke "receive" i payload
              ∈ trace (_make unicode_lower repr dumps EventManager_emit_event outside path
                             method params s')) as Hall.
  { intros i cb Hi.
    destruct (make_completes unicode_lower repr dumps EventManager_emit_event outside
                path method params s' d resp Hd Hm Hready Hex)
      as (h2 & pre2 & _ & _ & ->).
    rewrite (classify_data _ _ _ payload) by done. rewrite trace_triple.
    cbn [self with_ping _slots].
    apply elem_of_app. right. apply elem_of_app. left.
    by apply emit_event_invokes_all with cb. }
  split.
  - apply (Hall _ func). subst s'. cbn [self].
    rewrite add_event_slot_lookup. by apply list_lookup_middle.
  - intros i cb Hi. apply (Hall _ cb). subst s'. cbn [self].
    rewrite add_event_slot_lookup. by apply lookup_app_l_Some.
Qed.

(** ** The further properties at concrete calls *)

Lemma demo_GET : "GET" ∈ http_methods.
Proof. unfold http_methods. apply list_elem_of_here. Qed.

Lemma demo_store_of_lookup (m : RequestManager) (d : dict) :
  heap (demo_store_of m d) !! 0%nat = Some d.
Proof. unfold demo_store_of. cbn [heap]. apply lookup_singleton_eq. Qed.

Lemma demo_ready : ready demo_repr (self demo_store) demo_params.
Proof. split; [by eexists|]. split; by eexists. Qed.

Lemma make_validation_error_before_io_witness :
  heap (demo_store_of demo_manager [("page", PInt 51)]) !! 0%nat
    = Some [("page", PInt 51)] /\
  ("GET" ∈ http_methods) /\
  _validate_query demo_repr [("page", PInt 51)] =
    Raise (ValidationError "page number must be between 1 and 50") /\
  outcome (demo_call failfast_emit_event (demo_env demo_ok)
             (demo_store_of demo_manager [("page", PInt 51)])) =
    Raise (ValidationError "page number must be between 1 and 50") /\
  self (final (demo_call failfast_emit_event (demo_env demo_ok)
                 (demo_store_of demo_manager [("page", PInt 51)])))
    = demo_manager /\
  sent (trace (demo_call failfast_emit_event (demo_env demo_ok)
                 (demo_store_of demo_manager [("page", PInt 51)]))) = [] /\
  session_events
    (trace (demo_call failfast_emit_event (demo_env demo_ok)
              (demo_store_of demo_manager [("page", PInt 51)]))) = [].
Proof.
  split; [apply demo_store_of_lookup|]. split; [apply demo_GET|].
  split; [reflexivity|].
  exact (make_validation_error_before_io demo_unicode_lower demo_repr demo_dumps
           failfast_emit_event (demo_env demo_ok) "/users" "GET" 0%nat
           (demo_store_of demo_manager [("page", PInt 51)])
           [("page", PInt 51)] _ (demo_store_of_lookup _ _) demo_GET eq_refl).
Defined.

Lemma make_missing_type_witness :
  heap (demo_store_of demo_untyped demo_params) !! 0%nat = Some demo_params /\
  ("GET" ∈ http_methods) /\
  _validate_query demo_repr demo_params = Ok "?page=2&sort=-name" /\
  _type (self (demo_store_of demo_untyped demo_params)) = None /\
  outcome (demo_call EventManager_emit_event (demo_env demo_ok)
             (demo_store_of demo_untyped demo_params)) =
    Raise (AttributeError "'NoneType' object has no attribute 'lower'") /\
  sent (trace (demo_call EventManager_emit_event (demo_env demo_ok)
                 (demo_store_of demo_untyped demo_params))) = [] /\
  session_events
    (trace (demo_call EventManager_emit_event (demo_env demo_ok)
              (demo_store_of demo_untyped demo_params))) = [].
Proof.
  split; [apply demo_store_of_lookup|]. split; [apply demo_GET|].
  split; [reflexivity|]. split; [reflexivity|].
  exact (make_missing_type demo_unicode_lower demo_repr demo_dumps EventManager_emit_event
           (demo_env demo_ok) "/users" "GET" 0%nat
           (demo_store_of demo_untyped demo_params) demo_params _
           (demo_store_of_lookup _ _) demo_GET eq_refl eq_refl).
Defined.

Lemma make_missing_credential_witness :
  heap (demo_store_of demo_anonymous demo_params) !! 0%nat = Some demo_params /\
  ("GET" ∈ http_methods) /\
  _validate_query demo_repr demo_params = Ok "?page=2&sort=-name" /\
  _type (self (demo_store_of demo_anonymous demo_params)) = Some "Application" /\
  auth (self (demo_store_of demo_anonymous demo_params)) = None /\
  outcome (demo_call EventManager_emit_event (demo_env demo_ok)
             (demo_store_of demo_anonymous demo_params)) =
    Raise (TypeError "missing authorization for requests") /\
  self (final (demo_call EventManager_emit_event (demo_env demo_ok)
                 (demo_store_of demo_anonymous demo_params)))
    = demo_anonymous /\
  sent (trace (demo_call EventManager_emit_event (demo_env demo_ok)
                 (demo_store_of demo_anonymous demo_params))) = [] /\
  session_events
    (trace (demo_call EventManager_emit_event (demo_env demo_ok)
              (demo_store_of demo_anonymous demo_params)))
    = [SessionEnter; SessionExit].
Proof.
  split; [apply demo_store_of_lookup|]. split; [apply demo_GET|].
  split; [reflexivity|]. split; [reflexivity|]. split; [reflexivity|].
  exact (make_missing_credential demo_unicode_lower demo_repr demo_dumps EventManager_emit_event
           (demo_env demo_ok) "/users" "GET" 0%nat
           (demo_store_of demo_anonymous demo_params) demo_params _ _
           (demo_store_of_lookup _ _) demo_GET eq_refl eq_refl eq_refl).
Defined.

Lemma make_transport_failure_witness :
  heap demo_store !! 0%nat = Some demo_params /\
  ("GET" ∈ http_methods) /\
  ready demo_repr (self demo_store) demo_params /\
  exchange demo_env_down = Raise (ClientError "connection refused") /\
  outcome (demo_call failfast_emit_event demo_env_down demo_store) =
    Raise (ClientError "connection refused") /\
  self (final (demo_call failfast_emit_event demo_env_down demo_store))
    = self demo_store /\
  length (sent (trace (demo_call failfast_emit_event demo_env_down demo_store)))
    = 1%nat /\
  received (trace (demo_call failfast_emit_event demo_env_down demo_store))
    = [] /\
  receive_events (trace (demo_call failfast_emit_event demo_env_down demo_store))
    = [] /\
  session_events (trace (demo_call failfast_emit_event demo_env_down demo_store))
    = [SessionEnter; SessionExit].
Proof.
  split; [apply demo_store_params|]. split; [apply demo_GET|].
  split; [apply demo_ready|]. split; [reflexivity|].
  exact (make_transport_failure demo_unicode_lower demo_repr demo_dumps failfast_emit_event
           demo_env_down "/users" "GET" 0%nat demo_store demo_params _
           demo_store_params demo_GET demo_ready eq_refl).
Defined.

Lemma demo_request_sent :
  demo_request ∈
    sent (trace (demo_call EventManager_emit_event (demo_env demo_ok) demo_store)).
Proof.
  replace (sent (trace (demo_call EventManager_emit_event (demo_env demo_ok)
                          demo_store)))
    with [demo_request] by (vm_compute; reflexivity).
  apply list_elem_of_here.
Qed.

Lemma make_request_contents_witness :
  heap demo_store !! 0%nat = Some demo_params /\
  demo_request ∈
    sent (trace (demo_call EventManager_emit_event (demo_env demo_ok) demo_store)) /\
  exists query ty a,
    _validate_query demo_repr demo_params = Ok query /\
    _type (self demo_store) = Some ty /\ auth (self demo_store) = Some a /\
    verb demo_request = str_lower demo_unicode_lower "GET" /\
    url demo_request =
      domain (self demo_store) +:+ "/api/" +:+ str_lower demo_unicode_lower ty
      +:+ "/users" +:+ query /\
    get_headers (self demo_store) = Ok (headers demo_request) /\
    headers demo_request = [("User-Agent", ty +:+ " Pytero v0.1.0");
                            ("Content-Type", "application/json");
                            ("Accept", "application/json");
                            ("Authorization", "Bearer " +:+ a)].
Proof.
  split; [apply demo_store_params|]. split; [apply demo_request_sent|].
  exact (make_request_contents demo_unicode_lower demo_repr demo_dumps EventManager_emit_event
           (demo_env demo_ok) "/users" "GET" 0%nat demo_store demo_params
           demo_request demo_store_params demo_request_sent).
Defined.

Lemma make_one_exchange_witness :
  heap demo_store !! 0%nat = Some demo_params /\
  (length (received (trace (demo_call failfast_emit_event (demo_env demo_ok)
                              demo_store)))
   <= length (sent (trace (demo_call failfast_emit_event (demo_env demo_ok)
                             demo_store)))
   <= 1)%nat /\
  (session_events
     (trace (demo_call failfast_emit_event (demo_env demo_ok) demo_store)) = [] \/
   session_events
     (trace (demo_call failfast_emit_event (demo_env demo_ok) demo_store))
     = [SessionEnter; SessionExit] /\
   received (trace (demo_call failfast_emit_event (demo_env demo_ok) demo_store))
     = [] \/
   session_events
     (trace (demo_call failfast_emit_event (demo_env demo_ok) demo_store))
     = [SessionEnter; SessionClose; SessionExit] /\
   length (received (trace (demo_call failfast_emit_event (demo_env demo_ok)
                              demo_store)))
     = 1%nat).
Proof.
  split; [apply demo_store_params|].
  exact (make_one_exchange demo_unicode_lower demo_repr demo_dumps failfast_emit_event
           (demo_env demo_ok) "/users" "GET" 0%nat demo_store demo_params
           demo_store_params).
Defined.

Lemma make_keeps_identity_witness :
  heap demo_store !! 0%nat = Some demo_params /\
  self (final (demo_call failfast_emit_event demo_env_down demo_store)) =
    with_ping (self demo_store)
      (ping (self (final (demo_call failfast_emit_event demo_env_down
                            demo_store)))) /\
  (received (trace (demo_call failfast_emit_event demo_env_down demo_store))
     = [] ->
   self (final (demo_call failfast_emit_event demo_env_down demo_store))
     = self demo_store).
Proof.
  split; [apply demo_store_params|].
  exact (make_keeps_identity demo_unicode_lower demo_repr demo_dumps failfast_emit_event
           demo_env_down "/users" "GET" 0%nat demo_store demo_params
           demo_store_params).
Defined.

Lemma demo_failfast_raises :
  fst (failfast_emit_event (_slots (self demo_store)) "debug" PNone) =
    Raise (ValueError "subscriber failed") /\
  fst (contained_emit_event (_slots (self demo_store)) "debug" PNone) = Ok tt.
Proof. split; reflexivity. Qed.

Lemma make_ignores_emit_exceptions_witness :
  heap demo_store !! 0%nat = Some demo_params /\
  (forall registry name payload,
     snd (failfast_emit_event registry name payload) =
     snd (contained_emit_event registry name payload)) /\
  demo_call failfast_emit_event (demo_env demo_ok) demo_store =
  demo_call contained_emit_event (demo_env demo_ok) demo_store.
Proof.
  split; [apply demo_store_params|]. split; [reflexivity|].
  exact (make_ignores_emit_exceptions demo_unicode_lower demo_repr demo_dumps
           failfast_emit_event (demo_env demo_ok) contained_emit_event
           "/users" "GET" 0%nat demo_store demo_params demo_store_params
           (fun _ _ _ => eq_refl)).
Defined.

Lemma make_debug_log_witness :
  heap demo_store !! 0%nat = Some demo_params /\
  ("GET" ∈ http_methods) /\
  _validate_query demo_repr demo_params = Ok "?page=2&sort=-name" /\
  _type (self demo_store) = Some "Application" /\
  auth (self demo_store) = Some "key" /\
  exchange (demo_env demo_ok) = Ok demo_ok /\
  debug_messages
    (trace (demo_call failfast_emit_event (demo_env demo_ok) demo_store)) =
  (if truthy (dict_get demo_params "raw")
   then [PStr "[debug] sending raw byte payload"]
   else match strip_query_keys demo_params with
        | [] => []
        | _ => [PStr "[debug] sending json payload"]
        end) ++
  [PStr "[debug] attempting to start session";
   PStr ("[debug] attemping to perform request to " +:+
         domain (self demo_store) +:+ "/api/"
         +:+ str_lower demo_unicode_lower "Application" +:+
         "/users" +:+ "?page=2&sort=-name");
   PStr "[debug] ensuring session close before continuing";
   PStr ("[debug] received status: " +:+ pretty (status demo_ok))].
Proof.
  split; [apply demo_store_params|]. split; [apply demo_GET|].
  split; [reflexivity|]. split; [reflexivity|]. split; [reflexivity|].
  split; [reflexivity|].
  exact (make_debug_log demo_unicode_lower demo_repr demo_dumps failfast_emit_event
           (demo_env demo_ok) "/users" "GET" 0%nat demo_store demo_params
           _ _ _ demo_ok demo_store_params demo_GET eq_refl eq_refl eq_refl
           eq_refl).
Defined.

Lemma make_receive_after_close_witness :
  heap demo_store !! 0%nat = Some demo_params /\
  ("GET" ∈ http_methods) /\
  ready demo_repr (self demo_store) demo_params /\
  exchange (demo_env demo_ok) = Ok demo_ok /\
  (status demo_ok = 200 \/ status demo_ok = 201) /\
  json demo_ok = Ok demo_payload /\
  exists pre mid post,
    trace (demo_call EventManager_emit_event (demo_env demo_ok) demo_store) =
      pre ++ SessionClose :: mid ++ Emit "receive" demo_payload
          :: post ++ [SessionExit] /\
    receive_events pre = [] /\ receive_events mid = [] /\
    session_events mid = [] /\ session_events post = [].
Proof.
  split; [apply demo_store_params|]. split; [apply demo_GET|].
  split; [apply demo_ready|]. split; [reflexivity|].
  split; [left; reflexivity|]. split; [reflexivity|].
  exact (make_receive_after_close demo_unicode_lower demo_repr demo_dumps EventManager_emit_event
           (demo_env demo_ok) "/users" "GET" 0%nat demo_store demo_params
           demo_ok demo_payload demo_store_params demo_GET demo_ready eq_refl
           (or_introl eq_refl) eq_refl).
Defined.

Lemma demo_rget_listed :
  (rget demo_unicode_lower demo_repr demo_dumps EventManager_emit_event (demo_env demo_ok), "get")
    ∈ verb_methods demo_unicode_lower demo_repr demo_dumps EventManager_emit_event (demo_env demo_ok).
Proof. unfold verb_methods. apply list_elem_of_here. Qed.

Lemma verb_methods_request_witness :
  ((rget demo_unicode_lower demo_repr demo_dumps EventManager_emit_event (demo_env demo_ok), "get")
     ∈ verb_methods demo_unicode_lower demo_repr demo_dumps EventManager_emit_event
         (demo_env demo_ok)) /\
  heap demo_store !! 0%nat = Some demo_params /\
  clashes demo_params = false /\
  ready demo_repr (self demo_store) demo_params /\
  (exists req,
     sent (trace (rget demo_unicode_lower demo_repr demo_dumps EventManager_emit_event
                       (demo_env demo_ok) "/users" 0%nat demo_store)) = [req] /\
     verb req = "get" /\ data req = spec_body demo_dumps demo_params) /\
  heap (final (rget demo_unicode_lower demo_repr demo_dumps EventManager_emit_event
                    (demo_env demo_ok) "/users" 0%nat demo_store)) !! 0%nat
    = Some demo_params.
Proof.
  split; [apply demo_rget_listed|]. split; [apply demo_store_params|].
  split; [reflexivity|]. split; [apply demo_ready|].
  exact (verb_methods_request demo_unicode_lower demo_repr demo_dumps EventManager_emit_event
           (demo_env demo_ok) _ "get" "/users" 0%nat demo_store demo_params
           demo_rget_listed demo_store_params eq_refl demo_ready).
Defined.

Lemma demo_clashing_store :
  heap (demo_store_of demo_manager demo_clashing_params) !! 0%nat
    = Some demo_clashing_params.
Proof. apply lookup_singleton_eq. Qed.

Lemma verb_methods_keyword_clash_witness :
  ((rget demo_unicode_lower demo_repr demo_dumps EventManager_emit_event (demo_env demo_ok), "get")
     ∈ verb_methods demo_unicode_lower demo_repr demo_dumps EventManager_emit_event
         (demo_env demo_ok)) /\
  heap (demo_store_of demo_manager demo_clashing_params) !! 0%nat
    = Some demo_clashing_params /\
  clashes demo_clashing_params = true /\
  exists msg,
    rget demo_unicode_lower demo_repr demo_dumps EventManager_emit_event
         (demo_env demo_ok) "/users" 0%nat
         (demo_store_of demo_manager demo_clashing_params) =
    (Raise (TypeError msg), demo_store_of demo_manager demo_clashing_params, []).
Proof.
  split; [apply demo_rget_listed|]. split; [apply demo_clashing_store|].
  split; [reflexivity|].
  exact (verb_methods_keyword_clash demo_unicode_lower demo_repr demo_dumps
           EventManager_emit_event (demo_env demo_ok) _ "get" "/users" 0%nat
           (demo_store_of demo_manager demo_clashing_params)
           demo_clashing_params demo_rget_listed demo_clashing_store eq_refl).
Defined.

Lemma demo_delete_sent :
  demo_delete_request ∈
    sent (trace (rdelete demo_unicode_lower demo_repr demo_dumps EventManager_emit_event
                         (demo_env (HttpResponse 204 (Raise (DecodeError "empty"))))
                         "/users/1" demo_store)).
Proof.
  replace (sent (trace (rdelete demo_unicode_lower demo_repr demo_dumps EventManager_emit_event
                         (demo_env (HttpResponse 204 (Raise (DecodeError "empty"))))
                         "/users/1" demo_store)))
    with [demo_delete_request] by (vm_compute; reflexivity).
  apply list_elem_of_here.
Qed.

Lemma rdelete_request_witness :
  demo_delete_request ∈
    sent (trace (rdelete demo_unicode_lower demo_repr demo_dumps EventManager_emit_event
                         (demo_env (HttpResponse 204 (Raise (DecodeError "empty"))))
                         "/users/1" demo_store)) /\
  verb demo_delete_request = "delete" /\ data demo_delete_request = PNone /\
  exists ty, _type (self demo_store) = Some ty /\
             url demo_delete_request =
               domain (self demo_store) +:+ "/api/"
               +:+ str_lower demo_unicode_lower ty +:+ "/users/1".
Proof.
  split; [apply demo_delete_sent|].
  exact (rdelete_request demo_unicode_lower demo_repr demo_dumps EventManager_emit_event _
           "/users/1" demo_store demo_delete_request demo_delete_sent).
Defined.

Lemma demo_same_options (k : string) :
  k ∈ query_keys ->
  dict_get [("page", PInt 2)] k =
  dict_get [("name", PStr "x"); ("page", PInt 2); ("raw", PNone)] k.
Proof.
  intros Hk. unfold query_keys in Hk.
  repeat (apply elem_of_cons in Hk as [->|Hk]); try reflexivity.
  by apply elem_of_nil in Hk.
Qed.

Lemma validate_query_only_query_keys_witness :
  (forall k, k ∈ query_keys ->
     dict_get [("page", PInt 2)] k =
     dict_get [("name", PStr "x"); ("page", PInt 2); ("raw", PNone)] k) /\
  _validate_query demo_repr [("page", PInt 2)] =
  _validate_query demo_repr [("name", PStr "x"); ("page", PInt 2); ("raw", PNone)].
Proof.
  split; [exact demo_same_options|].
  exact (validate_query_only_query_keys demo_repr _ _ demo_same_options).
Defined.

Lemma validate_query_shape_witness :
  _validate_query demo_repr demo_params = Ok "?page=2&sort=-name" /\
  ("?page=2&sort=-name" = "" \/ exists rest, "?page=2&sort=-name" = "?" +:+ rest).
Proof.
  split; [reflexivity|].
  exact (validate_query_shape demo_repr demo_params "?page=2&sort=-name"
           eq_refl).
Defined.

Lemma validate_query_page_too_large_witness :
  dict_get [("filter", PInt 3); ("page", PInt 51)] "page" = PInt 51 /\
  50 < 51 /\
  _validate_query demo_repr [("filter", PInt 3); ("page", PInt 51)] =
  Raise (ValidationError "page number must be between 1 and 50").
Proof.
  split; [reflexivity|]. split; [lia|].
  exact (validate_query_page_too_large demo_repr
           [("filter", PInt 3); ("page", PInt 51)] 51 eq_refl ltac:(lia)).
Defined.

Lemma validate_query_per_page_too_large_witness :
  (truthy (dict_get [("per_page", PInt 101); ("page", PInt 0)] "page") = false \/
   (exists n, dict_get [("per_page", PInt 101); ("page", PInt 0)] "page" = PInt n
              /\ n <= 50)) /\
  dict_get [("per_page", PInt 101); ("page", PInt 0)] "per_page" = PInt 101 /\
  100 < 101 /\
  _validate_query demo_repr [("per_page", PInt 101); ("page", PInt 0)] =
  Raise (ValidationError "per_page number must be between 1 and 100").
Proof.
  split; [left; reflexivity|]. split; [reflexivity|]. split; [lia|].
  exact (validate_query_per_page_too_large demo_repr
           [("per_page", PInt 101); ("page", PInt 0)] 101
           (or_introl eq_refl) eq_refl ltac:(lia)).
Defined.

Lemma validate_query_page_string_witness :
  dict_get [("page", PStr "two")] "page" = PStr "two" /\
  "two" <> "" /\
  exists msg, _validate_query demo_repr [("page", PStr "two")] =
              Raise (TypeError msg).
Proof.
  split; [reflexivity|]. split; [discriminate|].
  exact (validate_query_page_string demo_repr [("page", PStr "two")] "two"
           eq_refl ltac:(discriminate)).
Defined.

Lemma validate_query_filter_not_pair_witness :
  truthy (dict_get [("filter", PTuple [PStr "name"])] "page") = false /\
  truthy (dict_get [("filter", PTuple [PStr "name"])] "per_page") = false /\
  truthy (dict_get [("filter", PTuple [PStr "name"])] "filter") = true /\
  (forall a b,
     dict_get [("filter", PTuple [PStr "name"])] "filter" <> PTuple [a; b]) /\
  exists msg, _validate_query demo_repr [("filter", PTuple [PStr "name"])] =
              Raise (TypeError msg).
Proof.
  split; [reflexivity|]. split; [reflexivity|]. split; [reflexivity|].
  split; [intros a b; discriminate|].
  exact (validate_query_filter_not_pair demo_repr
           [("filter", PTuple [PStr "name"])] eq_refl eq_refl eq_refl
           ltac:(intros a b; discriminate)).
Defined.

Lemma on_receive_then_call_witness :
  heap demo_store !! 0%nat = Some demo_params /\
  ("GET" ∈ http_methods) /\
  ready demo_repr (self demo_store) demo_params /\
  exchange (demo_env demo_ok) = Ok demo_ok /\
  (status demo_ok = 200 \/ status demo_ok = 201) /\
  json demo_ok = Ok demo_payload /\
  outcome (on_receive demo_quiet demo_store) = Ok demo_quiet /\
  Invoke "receive"
    (length (default [] (_slots (self demo_store) !! "receive"))) demo_payload
    ∈ trace (_make demo_unicode_lower demo_repr demo_dumps EventManager_emit_event
                   (demo_env demo_ok) "/users" "GET" 0%nat
                   (final (on_receive demo_quiet demo_store))) /\
  (forall i cb,
     default [] (_slots (self demo_store) !! "receive") !! i = Some cb ->
     Invoke "receive" i demo_payload
       ∈ trace (_make demo_unicode_lower demo_repr demo_dumps EventManager_emit_event
                      (demo_env demo_ok) "/users" "GET" 0%nat
                      (final (on_receive demo_quiet demo_store)))).
Proof.
  split; [apply demo_store_params|]. split; [apply demo_GET|].
  split; [apply demo_ready|]. split; [reflexivity|].
  split; [left; reflexivity|]. split; [reflexivity|].
  exact (on_receive_then_call demo_unicode_lower demo_repr demo_dumps (demo_env demo_ok)
           demo_quiet "/users" "GET" 0%nat demo_store demo_params demo_ok
           demo_payload demo_store_params demo_GET demo_ready eq_refl
           (or_introl eq_refl) eq_refl).
Defined.
